(** * Verification of [.github/scripts/check_dependencies.py]

    The script runs three steps in sequence: a conflict check ([pip check]),
    a version check of four critical packages ([pip show]), and the writing of
    a JSON report ([pip list --format=json]); its exit status is decided by
    the first two.

    The embedding is shallow.  Python statements become computations in a
    writer-and-exception monad [M]: every [print], every [subprocess.run] and
    every file operation is recorded as an [event], and a raised exception is
    the result [Raise].  What the outside world answers (the package manager,
    the disk) is read from an environment [Env]. *)

From Stdlib Require Import ZArith Ascii String List Lia.
From stdpp Require Import base gmap strings list pretty.

Local Open Scope list_scope.

(** ** Python strings

    A [str] is modelled as a [string] whose characters are code points below
    256. *)

Module Py.

Definition nl : string := String (ascii_of_nat 10) "".

(** [bool(s)] for a [str]: the empty string is falsy. *)
Definition truthy (s : string) : bool :=
  match s with
  | EmptyString => false
  | String _ _ => true
  end.

(** [s.startswith(p)] *)
Fixpoint startswith (p s : string) : bool :=
  match p, s with
  | EmptyString, _ => true
  | String a p', String b s' => if Ascii.eqb a b then startswith p' s' else false
  | String _ _, EmptyString => false
  end.

(** [s.split(sep)] for a separator of one character. *)
Fixpoint split (sep : ascii) (s : string) : list string :=
  match s with
  | EmptyString => [EmptyString]
  | String c s' =>
      if Ascii.eqb c sep then EmptyString :: split sep s'
      else match split sep s' with
           | [] => [String c EmptyString]
           | f :: fs => String c f :: fs
           end
  end.

(** [c.isspace()] on the code points below 256. *)
Definition isspace (c : ascii) : bool :=
  let n := nat_of_ascii c in
  (Nat.leb 9 n && Nat.leb n 13) || (Nat.leb 28 n && Nat.leb n 32)
  || Nat.eqb n 133 || Nat.eqb n 160.

Fixpoint lstrip (s : string) : string :=
  match s with
  | EmptyString => EmptyString
  | String c s' => if isspace c then lstrip s' else s
  end.

Fixpoint rstrip (s : string) : string :=
  match s with
  | EmptyString => EmptyString
  | String c s' =>
      match rstrip s' with
      | EmptyString => if isspace c then EmptyString else String c EmptyString
      | r => String c r
      end
  end.

(** [s.strip()] *)
Definition strip (s : string) : string := rstrip (lstrip s).

(** The value of a decimal digit, [None] for any other character. *)
Definition digit (c : ascii) : option N :=
  let n := N_of_ascii c in
  if (N.leb 48 n && N.leb n 57)%bool then Some (n - 48)%N else None.

End Py.

(** ** Results, events and the monad of the script *)

(** The outcome of evaluating a Python expression or block: a value, or an
    exception of class [Exception], kept as the text [str(e)] the handlers
    of the script print. *)
Inductive result (A : Type) : Type :=
| Ok (a : A)
| Raise (msg : string).
Arguments Ok {A} a.
Arguments Raise {A} msg.

(** What the script does to the outside world, in order. *)
Inductive event : Type :=
| Print (line : string)            (* print(line) *)
| Call (argv : list string)        (* subprocess.run(argv, ...) *)
| OpenW (path : string)            (* open(path, 'w'): create or truncate *)
| Write (path : string) (data : string).  (* data appended to the open file *)

Definition M (A : Type) : Type := (list event * result A)%type.

Definition ret {A} (a : A) : M A := ([], Ok a).

(** Sequencing: the events of [m], then those of [f], unless [m] raises. *)
Definition bind {A B} (m : M A) (f : A → M B) : M B :=
  match m with
  | (l, Ok a) => let '(l', r) := f a in (l ++ l', r)
  | (l, Raise msg) => (l, Raise msg)
  end.

Declare Scope py_scope.
Delimit Scope py_scope with py.
Notation "x ← y ; z" := (bind y (λ x, z))
  (at level 20, y at level 100, z at level 200, only parsing) : py_scope.
Notation "y ;; z" := (bind y (λ _, z))
  (at level 100, z at level 200, only parsing, right associativity) : py_scope.
Local Open Scope py_scope.

Definition emit (e : event) : M unit := ([e], Ok tt).
Definition print (line : string) : M unit := emit (Print line).
Definition raise {A} (msg : string) : M A := ([], Raise msg).
Definition lift {A} (r : result A) : M A := ([], r).

(** [try: body  except Exception as e: handler(str(e))] *)
Definition try_except {A} (body : M A) (handler : string → M A) : M A :=
  match body with
  | (l, Ok a) => (l, Ok a)
  | (l, Raise msg) => let '(l', r) := handler msg in (l ++ l', r)
  end.

Definition events {A} (m : M A) : list event := fst m.
Definition outcome {A} (m : M A) : result A := snd m.

(** The lines printed, in order. *)
Definition console (l : list event) : list string :=
  omap (λ e, match e with Print s => Some s | _ => None end) l.

(** The argument vectors of the external commands run, in order. *)
Definition commands (l : list event) : list (list string) :=
  omap (λ e, match e with Call a => Some a | _ => None end) l.

(** ** The environment *)

(** [subprocess.CompletedProcess], with the two attributes the script reads. *)
Record CompletedProcess : Type := {
  returncode : Z;
  stdout : string
}.

(** What writing [data] to a freshly opened file does. *)
Inductive write_outcome : Type :=
| Written                              (* all of the data reaches the file *)
| OpenFails (msg : string)             (* open() raises: nothing is touched *)
| WriteFails (n : nat) (msg : string). (* the first n characters, then a fault *)

Record Env : Type := {
  (** [subprocess.run(argv, capture_output=True, text=True)]: the completed
      process, or the exception it raises (command not found, ...). *)
  run : list string → result CompletedProcess;
  (** the behaviour of the disk for [open(path, 'w')] followed by writes *)
  disk : string → string → write_outcome
}.

Definition subprocess_run (env : Env) (argv : list string) : M CompletedProcess :=
  emit (Call argv);; lift (run env argv).

(** [lst[i]] *)
Definition index {A} (l : list A) (i : nat) : M A :=
  match l !! i with
  | Some a => ret a
  | None => raise "list index out of range"
  end.

(** ** The file system *)

Definition apply_event (fs : gmap string string) (e : event) : gmap string string :=
  match e with
  | OpenW path => <[path := ""]> fs
  | Write path data => <[path := default "" (fs !! path) +:+ data]> fs
  | Print _ | Call _ => fs
  end.

(** The files after the events [l] have happened on the files [fs]. *)
Definition files_after (fs : gmap string string) (l : list event) : gmap string string :=
  foldl apply_event fs l.

(** The events that leave the files alone. *)
Definition touches_no_file (l : list event) : Prop :=
  Forall (λ e, match e with
               | OpenW _ | Write _ _ => False
               | Print _ | Call _ => True
               end) l.

(** ** Python values that [json.loads] returns

    [F] is the type of Python floats, which the script never inspects. *)

#[local] Unset Elimination Schemes.
Inductive pyobj (F : Type) : Type :=
| PyNone
| PyBool (b : bool)
| PyInt (z : Z)
| PyFloat (f : F)
| PyStr (s : string)
| PyList (items : list (pyobj F))
| PyDict (entries : list (string * pyobj F)).
#[local] Set Elimination Schemes.
Arguments PyNone {F}.
Arguments PyBool {F} b.
Arguments PyInt {F} z.
Arguments PyFloat {F} f.
Arguments PyStr {F} s.
Arguments PyList {F} items.
Arguments PyDict {F} entries.

(** [len(o)] *)
Definition len {F} (o : pyobj F) : M nat :=
  match o with
  | PyStr s => ret (String.length s)
  | PyList items => ret (length items)
  | PyDict entries => ret (length entries)
  | PyNone => raise "object of type 'NoneType' has no len()"
  | PyBool _ => raise "object of type 'bool' has no len()"
  | PyInt _ => raise "object of type 'int' has no len()"
  | PyFloat _ => raise "object of type 'float' has no len()"
  end.

(** ** The script *)

Section Script.

(** [packaging.version], which the script imports: [version.parse(s)]
    returns a version or raises [InvalidVersion]; versions are compared
    with [<] and [>]. *)
Context {Version : Type}.
Variable parse : string → result Version.
Variable version_lt : Version → Version → bool.
Variable version_gt : Version → Version → bool.

(** [json], which the script imports: [json.loads(s)] returns a value or
    raises [JSONDecodeError]; [json.dump(o, f, indent=n)] writes the text
    [dumps n o] to [f]. *)
Context {F : Type}.
Variable loads : string → result (pyobj F).
Variable dumps : nat → pyobj F → string.

Variable env : Env.

(** *** [check_dependency_conflicts] *)

Definition check_dependency_conflicts : M bool :=
  print "Checking for dependency conflicts...";;
  try_except
    (result ← subprocess_run env ["pip"; "check"];
     if Z.eqb (returncode result) 0 then
       print "No dependency conflicts found";;
       ret true
     else
       print "Dependency conflicts detected:";;
       print (stdout result);;
       ret false)
    (λ e,
       print ("Error checking dependencies: " +:+ e);;
       ret false).

(** *** [check_critical_versions] *)

(** The dictionary [critical_packages], in insertion order, which is the
    order a [for] loop over [.items()] visits it in. *)
Definition critical_packages : list (string * (string * option string)) :=
  [ ("torch", ("1.10.0", None));
    ("numpy", ("1.21.0", Some "1.24.0"));
    ("opencv-python", ("4.5.0", None));
    ("pillow", ("8.0.0", None)) ].

(** [min_ver and version.parse(pkg_version) < version.parse(min_ver)] *)
Definition below_minimum (pkg_version min_ver : string) : M bool :=
  if Py.truthy min_ver then
    v ← lift (parse pkg_version);
    m ← lift (parse min_ver);
    ret (version_lt v m)
  else ret false.

(** [max_ver and version.parse(pkg_version) > version.parse(max_ver)] *)
Definition above_maximum (pkg_version : string) (max_ver : option string) : M bool :=
  match max_ver with
  | None => ret false
  | Some max_ver =>
      if Py.truthy max_ver then
        v ← lift (parse pkg_version);
        m ← lift (parse max_ver);
        ret (version_gt v m)
      else ret false
  end.

(** The text [f"... {max_ver}"] interpolates for a maximum. *)
Definition str_of_max (max_ver : option string) : string :=
  match max_ver with
  | None => "None"
  | Some s => s
  end.

(** The body of [if line.startswith('Version:')], up to the [break]; its
    value is the new value of [all_ok]. *)
Definition check_version_line (package min_ver : string) (max_ver : option string)
    (line : string) (all_ok : bool) : M bool :=
  part ← index (Py.split ":"%char line) 1;
  let pkg_version := Py.strip part in
  below ← below_minimum pkg_version min_ver;
  if below then
    print (package +:+ ": " +:+ pkg_version +:+ " is below minimum " +:+ min_ver);;
    ret false
  else
    above ← above_maximum pkg_version max_ver;
    if above then
      print (package +:+ ": " +:+ pkg_version +:+ " exceeds maximum "
             +:+ str_of_max max_ver);;
      ret all_ok
    else
      print (package +:+ ": " +:+ pkg_version +:+ " (valid)");;
      ret all_ok.

(** [for line in ...: if line.startswith('Version:'): ...; break] *)
Fixpoint scan_lines (package min_ver : string) (max_ver : option string)
    (lines : list string) (all_ok : bool) : M bool :=
  match lines with
  | [] => ret all_ok
  | line :: lines' =>
      if Py.startswith "Version:" line then
        check_version_line package min_ver max_ver line all_ok
      else scan_lines package min_ver max_ver lines' all_ok
  end.

(** One iteration of the loop over the table: the [try] statement.  Its
    value is the new value of [all_ok]. *)
Definition check_package (package min_ver : string) (max_ver : option string)
    (all_ok : bool) : M bool :=
  try_except
    (result ← subprocess_run env ["pip"; "show"; package];
     if negb (Z.eqb (returncode result) 0) then
       print (package +:+ ": NOT INSTALLED");;
       ret false
     else
       scan_lines package min_ver max_ver (Py.split (ascii_of_nat 10) (stdout result)) all_ok)
    (λ e,
       print ("Error checking " +:+ package +:+ ": " +:+ e);;
       ret false).

(** [for package, (min_ver, max_ver) in table.items(): ...] *)
Fixpoint check_packages (table : list (string * (string * option string)))
    (all_ok : bool) : M bool :=
  match table with
  | [] => ret all_ok
  | (package, (min_ver, max_ver)) :: table' =>
      all_ok' ← check_package package min_ver max_ver all_ok;
      check_packages table' all_ok'
  end.

Definition check_critical_versions : M bool :=
  print (Py.nl +:+ "Checking critical package versions...");;
  check_packages critical_packages true.

(** *** [generate_dependency_report] *)

(** [with open(path, 'w') as f:] followed by the writing of [data]. *)
Definition write_file (path data : string) : M unit :=
  match disk env path data with
  | Written => emit (OpenW path);; emit (Write path data)
  | OpenFails msg => raise msg
  | WriteFails n msg =>
      emit (OpenW path);; emit (Write path (String.substring 0 n data));; raise msg
  end.

Definition generate_dependency_report : M unit :=
  print (Py.nl +:+ "Generating dependency report...");;
  try_except
    (result ← subprocess_run env ["pip"; "list"; "--format=json"];
     packages ← lift (loads (stdout result));
     n ← len packages;
     print ("Total packages installed: " +:+ pretty n);;
     write_file "dependency_report.json" (dumps 2 packages);;
     print "Dependency report saved to dependency_report.json")
    (λ e, print ("Error generating report: " +:+ e)).

(** *** The entry point

    The value of [main] is the argument of [sys.exit]. *)
Definition main : M Z :=
  conflicts_ok ← check_dependency_conflicts;
  versions_ok ← check_critical_versions;
  generate_dependency_report;;
  if conflicts_ok && versions_ok then
    print (Py.nl +:+ "All dependency checks passed");;
    ret 0%Z
  else
    print (Py.nl +:+ "Dependency validation failed");;
    ret 1%Z.

(** The exit status of the process: the argument of [sys.exit], or 1 when
    an exception reaches the top level. *)
Definition exit_status (m : M Z) : Z :=
  match outcome m with
  | Ok code => code
  | Raise _ => 1%Z
  end.

End Script.

(** ** A model of [packaging.version] on release-only versions *)

Module Pep440.

Fixpoint number (s : string) (acc : N) : option N :=
  match s with
  | EmptyString => Some acc
  | String c s' =>
      match Py.digit c with
      | Some d => number s' (10 * acc + d)%N
      | None => None
      end
  end.

(** One component of the release: [[0-9]+], read by [int]. *)
Definition segment (s : string) : option N :=
  match s with
  | EmptyString => None
  | String _ _ => number s 0%N
  end.

(** The optional leading [v] of the pattern, matched ignoring case. *)
Definition strip_v (s : string) : string :=
  match s with
  | String c s' =>
      if (Ascii.eqb c "v" || Ascii.eqb c "V")%bool then s' else s
  | EmptyString => EmptyString
  end.

(** The key of a release drops the zeros at its end: 1.0 equals 1.0.0. *)
Fixpoint drop_trailing_zeros (l : list N) : list N :=
  match l with
  | [] => []
  | x :: l' =>
      match drop_trailing_zeros l' with
      | [] => if N.eqb x 0 then [] else [x]
      | r => x :: r
      end
  end.

(** Modelled from the spec: [packaging.version.parse] is imported by the
    script and is not part of the repository.  The spec asks for
    PEP-440-style numeric ordering; this is the library (version 22 and
    later) on release-only versions such as 1.10.0, kept as the comparison
    key of the release.  A string with an epoch, a pre-, post- or
    dev-release or a local part is outside this model, which answers
    [Raise] for it as for an invalid version. *)
Definition parse (s : string) : result (list N) :=
  match mapM segment (Py.split "."%char (strip_v (Py.strip s))) with
  | Some release => Ok (drop_trailing_zeros release)
  | None => Raise ("Invalid version: '" +:+ s +:+ "'")
  end.

(** Modelled from the spec: the order of release keys, which is the order
    of Python tuples of integers. *)
Fixpoint lt (a b : list N) : bool :=
  match a, b with
  | _, [] => false
  | [], _ :: _ => true
  | x :: a', y :: b' => (N.ltb x y || (N.eqb x y && lt a' b'))%bool
  end.

Definition gt (a b : list N) : bool := lt b a.

(** The text of a release with the components [a]: their decimal texts with
    dots between them, as in 1.10.0. *)
Fixpoint dotted (a : list N) : string :=
  match a with
  | [] => EmptyString
  | [x] => pretty x
  | x :: a' => pretty x +:+ "." +:+ dotted a'
  end.

(** A key: a release that does not end with a zero. *)
Definition is_key (a : list N) : Prop := drop_trailing_zeros a = a.

(** The component [i] of a release; a release is padded with zeros. *)
Definition component (a : list N) (i : nat) : N := nth i a 0%N.

(** Modelled from the spec: the numeric order of releases of PEP 440.  The
    release [a] is below the release [b] when, both padded with zeros, the
    first component in which they differ is the smaller number in [a]. *)
Definition release_below (a b : list N) : Prop :=
  ∃ i, (∀ j, (j < i)%nat → component a j = component b j)
       ∧ (component a i < component b i)%N.

End Pep440.

(** ** Situations a package can be in

    The claims speak of packages that are installed, missing, below a bound
    and so on; these are those situations, in terms of what the package
    manager answers and of the operations of [packaging.version]. *)

Section Situations.

Context {Version : Type}.
Variable parse : string → result Version.
Variable version_lt : Version → Version → bool.
Variable version_gt : Version → Version → bool.
Variable env : Env.

(** The command of the per-package query. *)
Definition pip_show (package : string) : list string := ["pip"; "show"; package].

(** The first line of the output of [pip show] that starts with
    [Version:], which is the line the inner loop stops at. *)
Definition version_line (out : string) : option string :=
  List.find (Py.startswith "Version:") (Py.split (ascii_of_nat 10) out).

(** The version the script reads off that line. *)
Definition reported_version (out : string) : option string :=
  match version_line out with
  | Some line =>
      match Py.split ":"%char line !! 1 with
      | Some part => Some (Py.strip part)
      | None => None
      end
  | None => None
  end.

(** The query succeeds and reports the version [s]. *)
Definition installed (package s : string) : Prop :=
  ∃ r, run env (pip_show package) = Ok r ∧ returncode r = 0%Z
       ∧ reported_version (stdout r) = Some s.

(** The query reports failure. *)
Definition not_installed (package : string) : Prop :=
  ∃ r, run env (pip_show package) = Ok r ∧ returncode r ≠ 0%Z.

(** The query itself raises. *)
Definition query_raises (package msg : string) : Prop :=
  run env (pip_show package) = Raise msg.

(** The query succeeds and no line of its output starts with [Version:]. *)
Definition no_version_line (package : string) : Prop :=
  ∃ r, run env (pip_show package) = Ok r ∧ returncode r = 0%Z
       ∧ version_line (stdout r) = None.

(** [s] is a version below the version [bound]. *)
Definition below (s bound : string) : Prop :=
  ∃ v b, parse s = Ok v ∧ parse bound = Ok b ∧ version_lt v b = true.

(** [s] is a version at or above the version [bound]. *)
Definition at_least (s bound : string) : Prop :=
  ∃ v b, parse s = Ok v ∧ parse bound = Ok b ∧ version_lt v b = false.

(** [s] is a version above the version [bound]. *)
Definition above (s bound : string) : Prop :=
  ∃ v b, parse s = Ok v ∧ parse bound = Ok b ∧ version_gt v b = true.

(** [s] is a version at or below the version [bound]. *)
Definition at_most (s bound : string) : Prop :=
  ∃ v b, parse s = Ok v ∧ parse bound = Ok b ∧ version_gt v b = false.

(** [s] is at or below the maximum, or there is no maximum. *)
Definition within_maximum (s : string) (max_ver : option string) : Prop :=
  match max_ver with
  | None => True
  | Some bound => at_most s bound
  end.

(** [s] can be compared with the maximum, if there is one. *)
Definition comparable_with_maximum (s : string) (max_ver : option string) : Prop :=
  match max_ver with
  | None => True
  | Some bound => ∃ v b, parse s = Ok v ∧ parse bound = Ok b
  end.

(** What one iteration of the loop does to [all_ok] when it starts from
    [True]. *)
Definition verdict (package min_ver : string) (max_ver : option string) : bool :=
  match outcome (check_package parse version_lt version_gt env package min_ver max_ver true) with
  | Ok b => b
  | Raise _ => false
  end.

End Situations.

(** ** A model of [json] on documents without floats *)

Module Json.

(** The values of the model: there is no float among them. *)
Abbreviation value := (pyobj Empty_set).

Definition dq : ascii := ascii_of_nat 34.
Definition backslash : ascii := ascii_of_nat 92.

(** *** [json.dumps] *)

Definition hex_digit (n : N) : ascii :=
  if N.ltb n 10 then ascii_of_N (48 + n) else ascii_of_N (87 + n).

(** One character of a string, as [ensure_ascii=True] writes it. *)
Definition escape (c : ascii) : string :=
  let n := N_of_ascii c in
  if N.eqb n 34 then String backslash (String dq "")
  else if N.eqb n 92 then String backslash (String backslash "")
  else if N.eqb n 10 then String backslash "n"
  else if N.eqb n 13 then String backslash "r"
  else if N.eqb n 9 then String backslash "t"
  else if N.eqb n 8 then String backslash "b"
  else if N.eqb n 12 then String backslash "f"
  else if (N.ltb n 32 || N.ltb 126 n)%bool then
    String backslash
      (String "u" (String "0" (String "0"
         (String (hex_digit (n / 16)) (String (hex_digit (n mod 16)) "")))))
  else String c "".

Fixpoint escape_string (s : string) : string :=
  match s with
  | EmptyString => EmptyString
  | String c s' => escape c +:+ escape_string s'
  end.

Definition encode_string (s : string) : string :=
  String dq (escape_string s +:+ String dq "").

Fixpoint spaces (k : nat) : string :=
  match k with
  | O => EmptyString
  | S k' => String " " (spaces k')
  end.

(** A line break and the indentation of the nesting level [lvl]. *)
Definition newline_indent (n lvl : nat) : string :=
  Py.nl +:+ spaces (n * lvl).

(** The elements of a non-empty container, from the first one to the
    closing bracket. *)
Definition dump_sequence {A} (dump : A → string) (separator closing : string) :
    list A → string :=
  fix go (l : list A) : string :=
    match l with
    | [] => closing
    | [x] => dump x +:+ closing
    | x :: l' => dump x +:+ separator +:+ go l'
    end.

(** Modelled from the spec: [json] is imported by the script and is not
    part of the repository.  The spec asks for a JSON file, indented.  This
    is the text [json.dumps(v, indent=n)] returns, with the defaults of the
    library: non-ASCII and control characters escaped, a comma at the end of
    the line between elements and a colon and a space after a key. *)
Fixpoint dumps_at (n lvl : nat) (v : value) : string :=
  match v with
  | PyNone => "null"
  | PyBool true => "true"
  | PyBool false => "false"
  | PyInt z => pretty z
  | PyFloat f => match f with end
  | PyStr s => encode_string s
  | PyList [] => "[]"
  | PyList items =>
      "[" +:+ newline_indent n (S lvl) +:+
      dump_sequence (dumps_at n (S lvl))
        ("," +:+ newline_indent n (S lvl)) (newline_indent n lvl +:+ "]") items
  | PyDict [] => "{}"
  | PyDict entries =>
      "{" +:+ newline_indent n (S lvl) +:+
      dump_sequence (λ e, encode_string e.1 +:+ ": " +:+ dumps_at n (S lvl) e.2)
        ("," +:+ newline_indent n (S lvl)) (newline_indent n lvl +:+ "}") entries
  end.

Definition dumps (n : nat) (v : value) : string := dumps_at n 0 v.

(** *** [json.loads] *)

(** The whitespace of JSON. *)
Definition is_ws (c : ascii) : bool :=
  let n := N_of_ascii c in
  (N.eqb n 32 || N.eqb n 9 || N.eqb n 10 || N.eqb n 13)%bool.

Fixpoint skip_ws (s : string) : string :=
  match s with
  | EmptyString => EmptyString
  | String c s' => if is_ws c then skip_ws s' else s
  end.

Definition hex_value (c : ascii) : option N :=
  let n := N_of_ascii c in
  if (N.leb 48 n && N.leb n 57)%bool then Some (n - 48)%N
  else if (N.leb 97 n && N.leb n 102)%bool then Some (n - 87)%N
  else if (N.leb 65 n && N.leb n 70)%bool then Some (n - 55)%N
  else None.

(** The four hexadecimal digits of a [\u] escape. *)
Definition hex4 (a b c d : ascii) : option N :=
  match hex_value a, hex_value b, hex_value c, hex_value d with
  | Some x, Some y, Some z, Some w => Some (((x * 16 + y) * 16 + z) * 16 + w)%N
  | _, _, _, _ => None
  end.

(** The character a backslash and [e] stand for. *)
Definition unescape (e : ascii) : option ascii :=
  let n := N_of_ascii e in
  if N.eqb n 34 then Some dq
  else if N.eqb n 92 then Some backslash
  else if N.eqb n 47 then Some "/"%char
  else if N.eqb n 98 then Some (ascii_of_nat 8)
  else if N.eqb n 102 then Some (ascii_of_nat 12)
  else if N.eqb n 110 then Some (ascii_of_nat 10)
  else if N.eqb n 114 then Some (ascii_of_nat 13)
  else if N.eqb n 116 then Some (ascii_of_nat 9)
  else None.

(** A string, from the character after its opening quote: the string and
    what follows its closing quote.  A control character is refused, as is
    an escape of a code point from 256 on, which is outside the model. *)
Fixpoint scan_string (s : string) : option (string * string) :=
  match s with
  | EmptyString => None
  | String c s' =>
      if Ascii.eqb c dq then Some (EmptyString, s')
      else if Ascii.eqb c backslash then
        match s' with
        | EmptyString => None
        | String e s'' =>
            if Ascii.eqb e "u" then
              match s'' with
              | String h1 (String h2 (String h3 (String h4 s3))) =>
                  match hex4 h1 h2 h3 h4 with
                  | Some n =>
                      if N.ltb n 256 then
                        match scan_string s3 with
                        | Some (str, rest) => Some (String (ascii_of_N n) str, rest)
                        | None => None
                        end
                      else None
                  | None => None
                  end
              | _ => None
              end
            else
              match unescape e with
              | Some c' =>
                  match scan_string s'' with
                  | Some (str, rest) => Some (String c' str, rest)
                  | None => None
                  end
              | None => None
              end
        end
      else if N.ltb (N_of_ascii c) 32 then None
      else
        match scan_string s' with
        | Some (str, rest) => Some (String c str, rest)
        | None => None
        end
  end.

(** The digits at the start of [s], read after the digits that gave
    [acc]. *)
Fixpoint scan_digits (s : string) (acc : N) : N * string :=
  match s with
  | EmptyString => (acc, EmptyString)
  | String c s' =>
      match Py.digit c with
      | Some d => scan_digits s' (10 * acc + d)%N
      | None => (acc, s)
      end
  end.

(** An integer at the start of [s]: a zero, or digits that start with no
    zero. *)
Definition scan_natural (s : string) : option (N * string) :=
  match s with
  | EmptyString => None
  | String c s' =>
      match Py.digit c with
      | Some 0%N => Some (0%N, s')
      | Some d => Some (scan_digits s' d)
      | None => None
      end
  end.

(** [s] without the prefix [p], if it starts with it. *)
Fixpoint after_prefix (p s : string) : option string :=
  match p, s with
  | EmptyString, _ => Some s
  | String a p', String b s' => if Ascii.eqb a b then after_prefix p' s' else None
  | String _ _, EmptyString => None
  end.

Definition scan_int (s : string) : option (Z * string) :=
  match after_prefix "-" s with
  | Some s' =>
      match scan_natural s' with
      | Some (n, rest) => Some ((- Z.of_N n)%Z, rest)
      | None => None
      end
  | None =>
      match scan_natural s with
      | Some (n, rest) => Some (Z.of_N n, rest)
      | None => None
      end
  end.

(** [d[k] = v] on a dictionary kept in insertion order. *)
Fixpoint dict_set {A} (d : list (string * A)) (k : string) (v : A) : list (string * A) :=
  match d with
  | [] => [(k, v)]
  | (k', v') :: d' => if String.eqb k' k then (k', v) :: d' else (k', v') :: dict_set d' k v
  end.

(** [dict(pairs)] *)
Definition dict_of_pairs {A} (pairs : list (string * A)) : list (string * A) :=
  foldl (λ d e, dict_set d e.1 e.2) [] pairs.

(** The scanner: a value at the start of [s] and what follows it.  [fuel]
    bounds the depth of the calls. *)
Fixpoint scan_once (fuel : nat) (s : string) : option (value * string) :=
  match fuel with
  | O => None
  | S fuel' =>
      match s with
      | EmptyString => None
      | String c s' =>
          if Ascii.eqb c dq then
            match scan_string s' with
            | Some (str, rest) => Some (PyStr str, rest)
            | None => None
            end
          else if Ascii.eqb c "[" then
            match after_prefix "]" (skip_ws s') with
            | Some rest => Some (PyList [], rest)
            | None =>
                match scan_items fuel' (skip_ws s') with
                | Some (items, rest) => Some (PyList items, rest)
                | None => None
                end
            end
          else if Ascii.eqb c "{" then
            match after_prefix "}" (skip_ws s') with
            | Some rest => Some (PyDict [], rest)
            | None =>
                match scan_members fuel' (skip_ws s') with
                | Some (pairs, rest) => Some (PyDict (dict_of_pairs pairs), rest)
                | None => None
                end
            end
          else if Ascii.eqb c "n" then
            match after_prefix "ull" s' with
            | Some rest => Some (PyNone, rest)
            | None => None
            end
          else if Ascii.eqb c "t" then
            match after_prefix "rue" s' with
            | Some rest => Some (PyBool true, rest)
            | None => None
            end
          else if Ascii.eqb c "f" then
            match after_prefix "alse" s' with
            | Some rest => Some (PyBool false, rest)
            | None => None
            end
          else
            match scan_int s with
            | Some (z, rest) => Some (PyInt z, rest)
            | None => None
            end
      end
  end

(** The elements of an array, from the first one to the closing bracket. *)
with scan_items (fuel : nat) (s : string) : option (list value * string) :=
  match fuel with
  | O => None
  | S fuel' =>
      match scan_once fuel' s with
      | Some (v, rest) =>
          match after_prefix "]" (skip_ws rest) with
          | Some rest' => Some ([v], rest')
          | None =>
              match after_prefix "," (skip_ws rest) with
              | Some rest' =>
                  match scan_items fuel' (skip_ws rest') with
                  | Some (items, rest'') => Some (v :: items, rest'')
                  | None => None
                  end
              | None => None
              end
          end
      | None => None
      end
  end

(** The members of an object, from the quote of the first key to the
    closing brace. *)
with scan_members (fuel : nat) (s : string) : option (list (string * value) * string) :=
  match fuel with
  | O => None
  | S fuel' =>
      match after_prefix (String dq "") s with
      | Some s1 =>
          match scan_string s1 with
          | Some (key, rest) =>
              match after_prefix ":" (skip_ws rest) with
              | Some rest1 =>
                  match scan_once fuel' (skip_ws rest1) with
                  | Some (v, rest2) =>
                      match after_prefix "}" (skip_ws rest2) with
                      | Some rest3 => Some ([(key, v)], rest3)
                      | None =>
                          match after_prefix "," (skip_ws rest2) with
                          | Some rest3 =>
                              match scan_members fuel' (skip_ws rest3) with
                              | Some (pairs, rest4) => Some ((key, v) :: pairs, rest4)
                              | None => None
                              end
                          | None => None
                          end
                      end
                  | None => None
                  end
              | None => None
              end
          | None => None
          end
      | None => None
      end
  end.

(** The number of calls of the scanner a value takes, at most. *)
Definition sum_with {A} (f : A → nat) : list A → nat :=
  fix go (l : list A) : nat :=
    match l with
    | [] => 0
    | x :: l' => S (f x + go l')
    end.

Fixpoint size (v : value) : nat :=
  match v with
  | PyList items => S (sum_with size items)
  | PyDict entries => S (sum_with (λ e, size e.2) entries)
  | _ => 1
  end.

Definition all_with {A} (P : A → Prop) : list A → Prop :=
  fix go (l : list A) : Prop :=
    match l with
    | [] => True
    | x :: l' => P x ∧ go l'
    end.

(** The values that are Python objects: the keys of a dictionary are
    distinct. *)
Fixpoint well_formed (v : value) : Prop :=
  match v with
  | PyList items => all_with well_formed items
  | PyDict entries => NoDup entries.*1 ∧ all_with (λ e, well_formed e.2) entries
  | _ => True
  end.

(** Modelled from the spec: [json.loads(s)] on the documents of the model.
    A document with a float, with a code point from 256 on or that is not
    JSON makes it raise; the text of the exception does not carry the
    position the library reports. *)
Definition loads (s : string) : result value :=
  match scan_once (S (String.length s)) (skip_ws s) with
  | Some (v, rest) =>
      match skip_ws rest with
      | EmptyString => Ok v
      | String _ _ => Raise "Extra data"
      end
  | None => Raise "Expecting value"
  end.

(** A text that does not go on with a digit: what may follow an integer. *)
Definition no_digit (s : string) : Prop :=
  match s with
  | EmptyString => True
  | String c _ => Py.digit c = None
  end.

(** The round trip of one value: the scanner reads back the text of [v],
    at any indentation, before any text that does not go on with a digit. *)
Definition scans_back (v : value) : Prop :=
  ∀ n lvl fuel rest,
    well_formed v → size v ≤ fuel → no_digit rest →
    scan_once fuel (dumps_at n lvl v +:+ rest) = Some (v, rest).

End Json.

(** ** A package manager to run the script against *)

Module Fixture.

(** What [pip show] prints for an installed package: the metadata, one
    field per line. *)
Definition show_output (name version : string) : string :=
  "Name: " +:+ name +:+ Py.nl +:+
  "Version: " +:+ version +:+ Py.nl +:+
  "Summary: a package" +:+ Py.nl +:+
  "Home-page: https://example.org/" +:+ name +:+ Py.nl.

(** An installed package, with what [pip show] prints for it. *)
Definition package (name version : string) : string * string :=
  (name, show_output name version).

(** A package manager: [check] is what [pip check] answers, [shown] the
    packages it knows, each with what [pip show] prints for it, [listing]
    what [pip list --format=json] answers.  A package it does not know makes
    [pip show] exit with status 1 and an empty standard output. *)
Definition pip (check : result CompletedProcess) (shown : list (string * string))
    (listing : result CompletedProcess) (d : string → string → write_outcome) : Env :=
  {| run := λ argv,
       match argv with
       | [a; b] =>
           if decide (a = "pip" ∧ b = "check") then check
           else Raise "[Errno 2] No such file or directory"
       | [a; b; c] =>
           if decide (a = "pip" ∧ b = "show") then
             match List.find (λ e, String.eqb e.1 c) shown with
             | Some (_, output) => Ok {| returncode := 0; stdout := output |}
             | None => Ok {| returncode := 1; stdout := "" |}
             end
           else if decide (a = "pip" ∧ b = "list" ∧ c = "--format=json") then listing
           else Raise "[Errno 2] No such file or directory"
       | _ => Raise "[Errno 2] No such file or directory"
       end;
     disk := d |}.

Definition no_conflicts : result CompletedProcess :=
  Ok {| returncode := 0; stdout := "No broken requirements found." +:+ Py.nl |}.

Definition healthy_disk : string → string → write_outcome := λ _ _, Written.

Definition command_not_found {A} : result A :=
  Raise "[Errno 2] No such file or directory: 'pip'".

(** A machine without [pip]: every command fails to start. *)
Definition no_pip : Env :=
  {| run := λ _, command_not_found; disk := healthy_disk |}.

(** What [pip list --format=json] prints for numpy 1.22.0 and torch
    1.12.0. *)
Definition listing_text : string :=
  let q := String Json.dq "" in
  "[{" +:+ q +:+ "name" +:+ q +:+ ": " +:+ q +:+ "numpy" +:+ q +:+ ", "
       +:+ q +:+ "version" +:+ q +:+ ": " +:+ q +:+ "1.22.0" +:+ q +:+ "}, {"
       +:+ q +:+ "name" +:+ q +:+ ": " +:+ q +:+ "torch" +:+ q +:+ ", "
       +:+ q +:+ "version" +:+ q +:+ ": " +:+ q +:+ "1.12.0" +:+ q +:+ "}]" +:+ Py.nl.

Definition listing : result CompletedProcess :=
  Ok {| returncode := 0; stdout := listing_text |}.

(** The four critical packages, all within their bounds. *)
Definition all_within_bounds : list (string * string) :=
  [ package "torch" "1.12.0"; package "numpy" "1.22.0";
    package "opencv-python" "4.6.0"; package "pillow" "9.0.0" ].

(** numpy above its maximum, the others within their bounds. *)
Definition numpy_above_maximum : list (string * string) :=
  [ package "torch" "1.12.0"; package "numpy" "1.25.0";
    package "opencv-python" "4.6.0"; package "pillow" "9.0.0" ].

(** numpy below its minimum, torch missing. *)
Definition numpy_below_minimum : list (string * string) :=
  [ package "numpy" "1.20.0"; package "opencv-python" "4.6.0";
    package "pillow" "9.0.0" ].

(** The scenario of the specification: opencv-python is missing. *)
Definition opencv_missing : list (string * string) :=
  [ package "torch" "1.12.0"; package "numpy" "1.22.0"; package "pillow" "9.0.0" ].

(** pillow answers without a version line. *)
Definition pillow_without_version : list (string * string) :=
  [ package "torch" "1.12.0"; package "numpy" "1.22.0";
    package "opencv-python" "4.6.0";
    ("pillow", "Name: pillow" +:+ Py.nl +:+ "Summary: imaging" +:+ Py.nl) ].

(** torch at 1.9.0, which a comparison of strings would place above
    1.10.0. *)
Definition torch_1_9 : list (string * string) :=
  [ package "torch" "1.9.0"; package "numpy" "1.22.0";
    package "opencv-python" "4.6.0"; package "pillow" "9.0.0" ].

(** A listing that is a JSON object, not an array. *)
Definition object_listing : result CompletedProcess :=
  let q := String Json.dq "" in
  Ok {| returncode := 0;
        stdout := "{" +:+ q +:+ "numpy" +:+ q +:+ ": " +:+ q +:+ "1.22.0" +:+ q +:+ "}" |}.

(** The listing of [listing], from a command that exits with status 1. *)
Definition failing_listing : result CompletedProcess :=
  Ok {| returncode := 1; stdout := listing_text |}.

(** A disk that is full after five characters. *)
Definition full_disk : string → string → write_outcome :=
  λ _ _, WriteFails 5 "[Errno 28] No space left on device".

(** torch reports a version that is no version. *)
Definition torch_unparsable : list (string * string) :=
  [ package "torch" "unknown"; package "numpy" "1.22.0";
    package "opencv-python" "4.6.0"; package "pillow" "9.0.0" ].

End Fixture.

(** ** More situations, for the report and for the output of [pip show] *)

(** The command of the report step and the file it writes. *)
Definition pip_list : list string := ["pip"; "list"; "--format=json"].
Definition report_path : string := "dependency_report.json".

(** [c in s] for a character [c]. *)
Fixpoint has_char (c : ascii) (s : string) : bool :=
  match s with
  | EmptyString => false
  | String b s' => if Ascii.eqb b c then true else has_char c s'
  end.

(** The text whose lines are [ls], each one ended by a line break. *)
Fixpoint unlines (ls : list string) : string :=
  match ls with
  | [] => EmptyString
  | l :: ls' => l +:+ Py.nl +:+ unlines ls'
  end.

(** A line of the output of [pip show] that the inner loop passes over. *)
Definition passed_over (line : string) : Prop :=
  has_char (ascii_of_nat 10) line = false ∧ Py.startswith "Version:" line = false.

Section ReportSituations.

Context {F : Type}.
Variable loads : string → result (pyobj F).
Variable dumps : nat → pyobj F → string.
Variable env : Env.

(** The report step fails with [msg] before it opens the file: the listing
    command raises, its output is not JSON, the value has no length, or
    [open] raises. *)
Definition fails_before_write (msg : string) : Prop :=
  match run env pip_list with
  | Raise m => m = msg
  | Ok r =>
      match loads (stdout r) with
      | Raise m => m = msg
      | Ok o =>
          match outcome (len o) with
          | Raise m => m = msg
          | Ok _ => disk env report_path (dumps 2 o) = OpenFails msg
          end
      end
  end.

(** The listing command completes with a value of length [n], whose text
    is [data]. *)
Definition listing_value (o : pyobj F) (n : nat) (data : string) : Prop :=
  ∃ r, run env pip_list = Ok r ∧ loads (stdout r) = Ok o
       ∧ outcome (len o) = Ok n ∧ data = dumps 2 o.

End ReportSituations.

(** The last line of a run, from its exit status. *)
Definition banner_of (status : Z) : string :=
  Py.nl +:+ (if Z.eqb status 0 then "All dependency checks passed"
             else "Dependency validation failed").

(** Every package of the table answers in a way that leaves [all_ok]
    alone: no version line, or a version at or above the minimum that can
    be compared with the maximum. *)
Definition all_acceptable {Version} (parse : string → result Version)
    (version_lt : Version → Version → bool) (env : Env) : Prop :=
  ∀ p mn mx, (p, (mn, mx)) ∈ critical_packages →
    no_version_line env p
    ∨ ∃ s, installed env p s ∧ at_least parse version_lt s mn
           ∧ comparable_with_maximum parse s mx.

(** * Properties *)

(** ** The monad *)

Section Monad.
Context {A B : Type}.

Lemma outcome_bind (m : M A) (f : A → M B) :
  outcome (bind m f) =
    match outcome m with
    | Ok a => outcome (f a)
    | Raise msg => Raise msg
    end.
Proof.
  destruct m as [l [a|msg]]; simpl; [|reflexivity].
  destruct (f a); reflexivity.
Qed.

Lemma events_bind (m : M A) (f : A → M B) :
  events (bind m f) =
    events m ++ match outcome m with
                | Ok a => events (f a)
                | Raise _ => []
                end.
Proof.
  destruct m as [l [a|msg]]; simpl.
  - destruct (f a); reflexivity.
  - symmetry; apply app_nil_r.
Qed.

Lemma outcome_try (body : M A) (handler : string → M A) :
  outcome (try_except body handler) =
    match outcome body with
    | Ok a => Ok a
    | Raise msg => outcome (handler msg)
    end.
Proof.
  destruct body as [l [a|msg]]; simpl; [reflexivity|].
  destruct (handler msg); reflexivity.
Qed.

Lemma events_try (body : M A) (handler : string → M A) :
  events (try_except body handler) =
    events body ++ match outcome body with
                   | Ok _ => []
                   | Raise msg => events (handler msg)
                   end.
Proof.
  destruct body as [l [a|msg]]; simpl.
  - symmetry; apply app_nil_r.
  - destruct (handler msg); reflexivity.
Qed.

Lemma bind_ret (a : A) (f : A → M B) : bind (ret a) f = f a.
Proof. unfold bind, ret. destruct (f a); reflexivity. Qed.

Lemma bind_lift_ok (a : A) (f : A → M B) : bind (lift (Ok a)) f = f a.
Proof. apply bind_ret. Qed.

Lemma bind_lift_raise msg (f : A → M B) : bind (lift (Raise msg)) f = ([], Raise msg).
Proof. reflexivity. Qed.

End Monad.

Lemma M_eta {A} (m : M A) : m = (events m, outcome m).
Proof. destruct m; reflexivity. Qed.

Lemma commands_app l1 l2 : commands (l1 ++ l2) = commands l1 ++ commands l2.
Proof. apply omap_app. Qed.

Lemma commands_call argv l : commands (Call argv :: l) = argv :: commands l.
Proof. reflexivity. Qed.

Lemma console_app l1 l2 : console (l1 ++ l2) = console l1 ++ console l2.
Proof. apply omap_app. Qed.

(** ** Python strings *)

Lemma startswith_app p s :
  Py.startswith p s = true → ∃ rest, s = p +:+ rest.
Proof.
  revert s; induction p as [|a p IH]; intros s H.
  - exists s; reflexivity.
  - destruct s as [|b s]; [discriminate H|].
    cbn [Py.startswith] in H.
    destruct (Ascii.eqb a b) eqn:Hab; [|discriminate H].
    apply Ascii.eqb_eq in Hab; subst b.
    destruct (IH s H) as [rest ->].
    exists rest; reflexivity.
Qed.

Lemma split_nonempty sep s : ∃ f fs, Py.split sep s = f :: fs.
Proof.
  induction s as [|c s (f & fs & IH)]; cbn [Py.split]; [eauto|].
  destruct (Ascii.eqb c sep); [eauto|].
  rewrite IH; eauto.
Qed.

(** A line that starts with [Version:] has a second field: the index 1 of
    the script is always in range. *)
Lemma split_colon_second line :
  Py.startswith "Version:" line = true →
  ∃ part, Py.split ":"%char line !! 1 = Some part.
Proof.
  intros H. apply startswith_app in H as [rest ->].
  destruct (split_nonempty ":"%char rest) as (f & fs & Hs).
  exists f.
  change (Py.split ":"%char ("Version:" +:+ rest))
    with ("Version" :: Py.split ":"%char rest).
  rewrite Hs. reflexivity.
Qed.

(** ** The version check, one package at a time *)

Section VersionCheck.

Context {Version : Type}.
Variable parse : string → result Version.
Variable version_lt : Version → Version → bool.
Variable version_gt : Version → Version → bool.
Variable env : Env.

Local Abbreviation check_version_line := (check_version_line parse version_lt version_gt).
Local Abbreviation scan_lines := (scan_lines parse version_lt version_gt).
Local Abbreviation check_package := (check_package parse version_lt version_gt env).
Local Abbreviation check_packages := (check_packages parse version_lt version_gt env).
Local Abbreviation check_critical_versions :=
  (check_critical_versions parse version_lt version_gt env).
Local Abbreviation verdict := (verdict parse version_lt version_gt env).
Local Abbreviation below := (below parse version_lt).
Local Abbreviation at_least := (at_least parse version_lt).
Local Abbreviation above := (above parse version_gt).
Local Abbreviation at_most := (at_most parse version_gt).
Local Abbreviation within_maximum := (within_maximum parse version_gt).
Local Abbreviation comparable_with_maximum := (comparable_with_maximum parse).
Local Abbreviation installed := (installed env).
Local Abbreviation not_installed := (not_installed env).
Local Abbreviation query_raises := (query_raises env).
Local Abbreviation no_version_line := (no_version_line env).

(** The inner loop runs the body on the first line that starts with
    [Version:], and does nothing when there is none. *)
Lemma scan_lines_find p mn mx lines ok :
  scan_lines p mn mx lines ok =
    match List.find (Py.startswith "Version:") lines with
    | Some line => check_version_line p mn mx line ok
    | None => ret ok
    end.
Proof.
  induction lines as [|line lines IH]; [reflexivity|].
  cbn [scan_lines List.find].
  destruct (Py.startswith "Version:" line); [reflexivity|apply IH].
Qed.

(** One iteration, by what the query answers. *)
Lemma check_package_unfold p mn mx ok :
  check_package p mn mx ok =
    match run env (pip_show p) with
    | Raise msg =>
        ([Call (pip_show p); Print ("Error checking " +:+ p +:+ ": " +:+ msg)], Ok false)
    | Ok r =>
        if Z.eqb (returncode r) 0 then
          match version_line (stdout r) with
          | None => ([Call (pip_show p)], Ok ok)
          | Some line =>
              let m := check_version_line p mn mx line ok in
              match outcome m with
              | Ok b => (Call (pip_show p) :: events m, Ok b)
              | Raise msg =>
                  (Call (pip_show p) :: events m
                     ++ [Print ("Error checking " +:+ p +:+ ": " +:+ msg)], Ok false)
              end
          end
        else ([Call (pip_show p); Print (p +:+ ": NOT INSTALLED")], Ok false)
    end.
Proof.
  unfold check_package, subprocess_run, pip_show.
  destruct (run env _) as [r|msg]; [|reflexivity].
  cbn [emit lift bind app].
  destruct (Z.eqb (returncode r) 0); [|reflexivity].
  cbn [negb]. rewrite scan_lines_find. unfold version_line.
  destruct (List.find _ _) as [line|]; [|reflexivity].
  cbn zeta.
  destruct (check_version_line p mn mx line ok) as [l [b|msg]]; reflexivity.
Qed.

(** Comparing with the maximum prints nothing and runs nothing. *)
Lemma above_maximum_events s mx :
  events (above_maximum parse version_gt s mx) = [].
Proof.
  unfold above_maximum.
  destruct mx as [bound|]; [|reflexivity].
  destruct (Py.truthy bound); [|reflexivity].
  destruct (parse s) as [v|msg]; [|reflexivity].
  rewrite bind_lift_ok.
  destruct (parse bound) as [b|msg]; reflexivity.
Qed.

(** The body run on the version line, by what the library answers. *)
Lemma check_version_line_unfold p mn mx line part ok :
  Py.split ":"%char line !! 1 = Some part →
  Py.truthy mn = true →
  check_version_line p mn mx line ok =
    let s := Py.strip part in
    match parse s with
    | Raise msg => ([], Raise msg)
    | Ok v =>
        match parse mn with
        | Raise msg => ([], Raise msg)
        | Ok b =>
            if version_lt v b then
              ([Print (p +:+ ": " +:+ s +:+ " is below minimum " +:+ mn)], Ok false)
            else
              match outcome (above_maximum parse version_gt s mx) with
              | Raise msg => ([], Raise msg)
              | Ok true =>
                  ([Print (p +:+ ": " +:+ s +:+ " exceeds maximum " +:+ str_of_max mx)],
                   Ok ok)
              | Ok false => ([Print (p +:+ ": " +:+ s +:+ " (valid)")], Ok ok)
              end
        end
    end.
Proof.
  intros Hpart Hmn. unfold check_version_line, index, below_minimum.
  rewrite Hpart, Hmn, bind_ret. cbn zeta.
  destruct (parse (Py.strip part)) as [v|msg] eqn:Hv; [|reflexivity].
  rewrite bind_lift_ok.
  destruct (parse mn) as [b|msg]; [|reflexivity].
  rewrite bind_lift_ok, bind_ret.
  destruct (version_lt v b); [reflexivity|].
  rewrite (M_eta (above_maximum _ _ _ _)), above_maximum_events.
  destruct (outcome (above_maximum _ _ _ _)) as [[|]|msg]; reflexivity.
Qed.

(** *** What one iteration does in each situation *)

Lemma check_package_missing p mn mx ok :
  not_installed p →
  check_package p mn mx ok =
    ([Call (pip_show p); Print (p +:+ ": NOT INSTALLED")], Ok false).
Proof.
  intros (r & Hr & Hrc). rewrite check_package_unfold, Hr.
  destruct (Z.eqb_spec (returncode r) 0); [contradiction|reflexivity].
Qed.

Lemma check_package_raises p mn mx ok msg :
  query_raises p msg →
  check_package p mn mx ok =
    ([Call (pip_show p); Print ("Error checking " +:+ p +:+ ": " +:+ msg)], Ok false).
Proof.
  intros Hr. rewrite check_package_unfold, Hr. reflexivity.
Qed.

Lemma check_package_no_version_line p mn mx ok :
  no_version_line p →
  check_package p mn mx ok = ([Call (pip_show p)], Ok ok).
Proof.
  intros (r & Hr & Hrc & Hline).
  rewrite check_package_unfold, Hr, Hrc, Hline. reflexivity.
Qed.

(** An installed package: the iteration is the body on the version line. *)
Lemma check_package_installed p mn mx ok s :
  installed p s →
  Py.truthy mn = true →
  ∃ line part,
    Py.split ":"%char line !! 1 = Some part ∧ s = Py.strip part ∧
    check_package p mn mx ok =
      let m := check_version_line p mn mx line ok in
      match outcome m with
      | Ok b => (Call (pip_show p) :: events m, Ok b)
      | Raise msg =>
          (Call (pip_show p) :: events m
             ++ [Print ("Error checking " +:+ p +:+ ": " +:+ msg)], Ok false)
      end.
Proof.
  intros (r & Hr & Hrc & Hrep) Hmn. unfold reported_version in Hrep.
  destruct (version_line (stdout r)) as [line|] eqn:Hline; [|discriminate].
  destruct (Py.split ":"%char line !! 1) as [part|] eqn:Hpart; [|discriminate].
  injection Hrep as <-.
  exists line, part. split; [exact Hpart|]. split; [reflexivity|].
  rewrite check_package_unfold, Hr, Hrc, Hline. reflexivity.
Qed.

Lemma check_package_below p mn mx ok s :
  installed p s → Py.truthy mn = true → below s mn →
  check_package p mn mx ok =
    ([Call (pip_show p); Print (p +:+ ": " +:+ s +:+ " is below minimum " +:+ mn)],
     Ok false).
Proof.
  intros Hi Hmn (v & b & Hv & Hb & Hlt).
  destruct (check_package_installed p mn mx ok s Hi Hmn)
    as (line & part & Hpart & -> & ->).
  rewrite (check_version_line_unfold _ _ _ _ _ _ Hpart Hmn).
  cbn zeta. rewrite Hv, Hb, Hlt. reflexivity.
Qed.

Lemma check_package_unparsable p mn mx ok s msg :
  installed p s → Py.truthy mn = true → parse s = Raise msg →
  check_package p mn mx ok =
    ([Call (pip_show p); Print ("Error checking " +:+ p +:+ ": " +:+ msg)], Ok false).
Proof.
  intros Hi Hmn Hv.
  destruct (check_package_installed p mn mx ok s Hi Hmn)
    as (line & part & Hpart & -> & ->).
  rewrite (check_version_line_unfold _ _ _ _ _ _ Hpart Hmn).
  cbn zeta. rewrite Hv. reflexivity.
Qed.

Lemma check_package_above p mn bound ok s :
  installed p s → Py.truthy mn = true → at_least s mn →
  Py.truthy bound = true → above s bound →
  check_package p mn (Some bound) ok =
    ([Call (pip_show p); Print (p +:+ ": " +:+ s +:+ " exceeds maximum " +:+ bound)],
     Ok ok).
Proof.
  intros Hi Hmn (v & b & Hv & Hb & Hlt) Hmx (v' & b' & Hv' & Hb' & Hgt).
  destruct (check_package_installed p mn (Some bound) ok s Hi Hmn)
    as (line & part & Hpart & -> & ->).
  rewrite (check_version_line_unfold _ _ _ _ _ _ Hpart Hmn).
  cbn zeta. rewrite Hv, Hb, Hlt. unfold above_maximum.
  rewrite Hmx, Hv', bind_lift_ok, Hb', bind_lift_ok, Hgt. reflexivity.
Qed.

Lemma check_package_valid p mn mx ok s :
  installed p s → Py.truthy mn = true → at_least s mn → within_maximum s mx →
  check_package p mn mx ok =
    ([Call (pip_show p); Print (p +:+ ": " +:+ s +:+ " (valid)")], Ok ok).
Proof.
  intros Hi Hmn (v & b & Hv & Hb & Hlt) Hmx.
  destruct (check_package_installed p mn mx ok s Hi Hmn)
    as (line & part & Hpart & -> & ->).
  rewrite (check_version_line_unfold _ _ _ _ _ _ Hpart Hmn).
  cbn zeta. rewrite Hv, Hb, Hlt. unfold above_maximum.
  destruct mx as [bound|]; [|reflexivity].
  destruct Hmx as (v' & b' & Hv' & Hb' & Hgt).
  destruct (Py.truthy bound); [|reflexivity].
  rewrite Hv', bind_lift_ok, Hb', bind_lift_ok, Hgt. reflexivity.
Qed.

(** An installed package at or above its minimum leaves [all_ok] alone,
    whatever its maximum says, as long as the maximum can be compared. *)
Lemma check_package_at_least p mn mx ok s :
  installed p s → Py.truthy mn = true → at_least s mn →
  comparable_with_maximum s mx →
  outcome (check_package p mn mx ok) = Ok ok.
Proof.
  intros Hi Hmn (v & b & Hv & Hb & Hlt) Hmx.
  destruct (check_package_installed p mn mx ok s Hi Hmn)
    as (line & part & Hpart & -> & ->).
  rewrite (check_version_line_unfold _ _ _ _ _ _ Hpart Hmn).
  cbn zeta. rewrite Hv, Hb, Hlt. unfold above_maximum.
  destruct mx as [bound|]; [|reflexivity].
  destruct Hmx as (v' & b' & Hv' & Hb').
  destruct (Py.truthy bound); [|reflexivity].
  rewrite Hv', bind_lift_ok, Hb', bind_lift_ok.
  destruct (version_gt v' b'); reflexivity.
Qed.

(** *** The flag through the loop *)

(** The body never turns [all_ok] back to [True], and what it prints does
    not depend on [all_ok]. *)
Lemma check_version_line_flag p mn mx line ok :
  events (check_version_line p mn mx line ok)
    = events (check_version_line p mn mx line true)
  ∧ outcome (check_version_line p mn mx line ok)
    = match outcome (check_version_line p mn mx line true) with
      | Ok b => Ok (ok && b)
      | Raise msg => Raise msg
      end.
Proof.
  unfold check_version_line.
  rewrite !events_bind, !outcome_bind.
  destruct (outcome (index _ 1)) as [part|msg]; [|split; reflexivity].
  rewrite !events_bind, !outcome_bind.
  destruct (outcome (below_minimum _ _ _ _)) as [[|]|msg];
    [split; [reflexivity|destruct ok; reflexivity] | | split; reflexivity].
  rewrite !events_bind, !outcome_bind.
  destruct (outcome (above_maximum _ _ _ _)) as [[|]|msg];
    split; try reflexivity; destruct ok; reflexivity.
Qed.

Lemma check_package_verdict p mn mx ok :
  check_package p mn mx ok =
    (events (check_package p mn mx true), Ok (ok && verdict p mn mx)).
Proof.
  unfold verdict. rewrite !check_package_unfold.
  destruct (run env (pip_show p)) as [r|msg];
    [|destruct ok; reflexivity].
  destruct (Z.eqb (returncode r) 0); [|destruct ok; reflexivity].
  destruct (version_line (stdout r)) as [line|];
    [|destruct ok; reflexivity].
  cbn zeta.
  destruct (check_version_line_flag p mn mx line ok) as [-> ->].
  destruct (outcome (check_version_line p mn mx line true)) as [b|msg];
    [reflexivity|destruct ok; reflexivity].
Qed.

(** The loop: the events of the iterations in the order of the table, and
    the conjunction of their verdicts. *)
Lemma check_packages_verdict table ok :
  check_packages table ok =
    (flat_map (λ '(p, (mn, mx)), events (check_package p mn mx true)) table,
     Ok (ok && forallb (λ '(p, (mn, mx)), verdict p mn mx) table)).
Proof.
  revert ok; induction table as [|[p [mn mx]] table IH]; intros ok.
  - cbn. rewrite andb_true_r. reflexivity.
  - cbn [check_packages flat_map forallb].
    rewrite check_package_verdict. cbn [bind].
    rewrite IH, andb_assoc. reflexivity.
Qed.

Lemma check_critical_versions_verdict :
  check_critical_versions =
    (Print (Py.nl +:+ "Checking critical package versions...")
       :: flat_map (λ '(p, (mn, mx)), events (check_package p mn mx true))
            critical_packages,
     Ok (forallb (λ '(p, (mn, mx)), verdict p mn mx) critical_packages)).
Proof.
  unfold check_critical_versions. rewrite check_packages_verdict. reflexivity.
Qed.

Lemma below_minimum_events s mn :
  events (below_minimum parse version_lt s mn) = [].
Proof.
  unfold below_minimum.
  destruct (Py.truthy mn); [|reflexivity].
  destruct (parse s) as [v|msg]; [|reflexivity].
  rewrite bind_lift_ok.
  destruct (parse mn) as [b|msg]; reflexivity.
Qed.

Lemma index_events {A} (l : list A) i : events (index l i) = [].
Proof. unfold index. destruct (l !! i); reflexivity. Qed.

(** The body on the version line runs no command. *)
Lemma check_version_line_commands p mn mx line ok :
  commands (events (check_version_line p mn mx line ok)) = [].
Proof.
  unfold check_version_line.
  rewrite events_bind, index_events.
  destruct (outcome (index _ 1)) as [part|msg]; [|reflexivity].
  rewrite events_bind, below_minimum_events.
  destruct (outcome (below_minimum _ _ _ _)) as [[|]|msg]; try reflexivity.
  rewrite events_bind, above_maximum_events.
  destruct (outcome (above_maximum _ _ _ _)) as [[|]|msg]; reflexivity.
Qed.

(** Every iteration starts with its query, and runs no other command. *)
Lemma check_package_commands p mn mx ok :
  commands (events (check_package p mn mx ok)) = [pip_show p].
Proof.
  rewrite check_package_unfold.
  destruct (run env (pip_show p)) as [r|msg]; [|reflexivity].
  destruct (Z.eqb (returncode r) 0); [|reflexivity].
  destruct (version_line (stdout r)) as [line|]; [|reflexivity].
  cbn zeta.
  pose proof (check_version_line_commands p mn mx line ok) as Hc.
  destruct (outcome (check_version_line p mn mx line ok)) as [b|msg];
    cbn [events fst]; rewrite commands_call, ?commands_app, Hc; reflexivity.
Qed.

(** The loop queries every package of the table, in order, whatever the
    answers are. *)
Lemma check_packages_commands table ok :
  commands (events (check_packages table ok)) = map (λ e, pip_show e.1) table.
Proof.
  rewrite check_packages_verdict. cbn [events fst].
  induction table as [|[p [mn mx]] table IH]; [reflexivity|].
  cbn [flat_map map].
  rewrite commands_app, IH, check_package_commands. reflexivity.
Qed.

(** *** The table *)

Lemma critical_packages_truthy p mn mx :
  (p, (mn, mx)) ∈ critical_packages →
  Py.truthy mn = true ∧ ∀ bound, mx = Some bound → Py.truthy bound = true.
Proof.
  unfold critical_packages. intros H.
  repeat (apply elem_of_cons in H as [H|H];
          [injection H as -> -> ->; split; [reflexivity|];
           intros bound Hb; try discriminate Hb;
           injection Hb as <-; reflexivity|]).
  apply elem_of_nil in H as [].
Qed.

Lemma verdict_all_true :
  (∀ p mn mx, (p, (mn, mx)) ∈ critical_packages → verdict p mn mx = true) →
  outcome check_critical_versions = Ok true.
Proof.
  intros H. rewrite check_critical_versions_verdict. cbn [outcome snd]. f_equal.
  apply forallb_forall. intros [p [mn mx]] Hin.
  apply H, list_elem_of_In, Hin.
Qed.

Lemma verdict_one_false p mn mx :
  (p, (mn, mx)) ∈ critical_packages → verdict p mn mx = false →
  outcome check_critical_versions = Ok false.
Proof.
  intros Hin Hv. rewrite check_critical_versions_verdict. cbn [outcome snd]. f_equal.
  apply not_true_is_false. intros Hall.
  rewrite forallb_forall in Hall.
  specialize (Hall _ (proj1 (list_elem_of_In _ _) Hin)). cbn in Hall.
  congruence.
Qed.

(** What an iteration prints is printed by the check. *)
Lemma check_package_event_in_check p mn mx e :
  (p, (mn, mx)) ∈ critical_packages →
  e ∈ events (check_package p mn mx true) →
  e ∈ events check_critical_versions.
Proof.
  intros Hin He. rewrite check_critical_versions_verdict. cbn [events fst].
  apply elem_of_cons. right.
  apply list_elem_of_In, in_flat_map.
  exists (p, (mn, mx)). split; apply list_elem_of_In; assumption.
Qed.

(** An iteration that leaves [all_ok] alone has a true verdict. *)
Lemma verdict_of_outcome p mn mx :
  outcome (check_package p mn mx true) = Ok true → verdict p mn mx = true.
Proof. unfold verdict. intros ->. reflexivity. Qed.

Lemma verdict_of_failure p mn mx :
  outcome (check_package p mn mx true) = Ok false → verdict p mn mx = false.
Proof. unfold verdict. intros ->. reflexivity. Qed.

(** ** The claims on the version check *)

(** C2. If every package of the table is installed, its version line is
    reported, and the version is at or above the minimum of the package and
    at or below its maximum (or there is no maximum), the version check
    returns [True]. *)
Theorem version_check_true_within_bounds :
  (∀ p mn mx, (p, (mn, mx)) ∈ critical_packages →
     ∃ s, installed p s ∧ at_least s mn ∧ within_maximum s mx) →
  outcome check_critical_versions = Ok true.
Proof.
  intros H. apply verdict_all_true. intros p mn mx Hin.
  destruct (H p mn mx Hin) as (s & Hi & Hmin & Hmax).
  destruct (critical_packages_truthy p mn mx Hin) as [Hmn _].
  apply verdict_of_outcome.
  rewrite (check_package_valid p mn mx true s Hi Hmn Hmin Hmax). reflexivity.
Qed.

(** C3. A package of the table whose installed version exceeds its maximum
    gets the exceeds-maximum warning and leaves the overall result alone:
    the check returns [True] provided no package is missing, below its
    minimum or in error, which is to say that every other package either has
    no version line or is installed at or above its minimum with a maximum
    that can be compared. *)
Theorem exceeding_maximum_only_warns p mn bound s :
  (p, (mn, Some bound)) ∈ critical_packages →
  installed p s → at_least s mn → above s bound →
  let warning := Print (p +:+ ": " +:+ s +:+ " exceeds maximum " +:+ bound) in
  (∀ ok, check_package p mn (Some bound) ok = ([Call (pip_show p); warning], Ok ok))
  ∧ warning ∈ events check_critical_versions
  ∧ ((∀ q mnq mxq, (q, (mnq, mxq)) ∈ critical_packages → q ≠ p →
        no_version_line q
        ∨ ∃ sq, installed q sq ∧ at_least sq mnq ∧ comparable_with_maximum sq mxq) →
     outcome check_critical_versions = Ok true).
Proof.
  intros Hin Hi Hmin Habove warning.
  destruct (critical_packages_truthy p mn (Some bound) Hin) as [Hmn Hmx].
  specialize (Hmx bound eq_refl).
  assert (Hstep : ∀ ok, check_package p mn (Some bound) ok
                       = ([Call (pip_show p); warning], Ok ok)).
  { intros ok. apply check_package_above; assumption. }
  split; [exact Hstep|]. split.
  - apply (check_package_event_in_check p mn (Some bound)); [exact Hin|].
    rewrite Hstep. apply elem_of_cons. right. apply elem_of_cons. left. reflexivity.
  - intros Hothers. apply verdict_all_true. intros q mnq mxq Hq.
    apply verdict_of_outcome.
    destruct (decide (q = p)) as [->|Hne].
    + assert (Heq : (mnq, mxq) = (mn, Some bound)).
      { clear -Hin Hq. unfold critical_packages in *.
        repeat (apply elem_of_cons in Hin as [Hin|Hin];
                [injection Hin as -> -> ->|]);
          try (apply elem_of_nil in Hin as []);
          repeat (apply elem_of_cons in Hq as [Hq|Hq];
                  [try discriminate Hq; injection Hq as -> ->; reflexivity|]);
          apply elem_of_nil in Hq as []. }
      injection Heq as -> ->. rewrite Hstep. reflexivity.
    + destruct (critical_packages_truthy q mnq mxq Hq) as [Hmnq _].
      destruct (Hothers q mnq mxq Hq Hne) as [Hnone|(sq & Hiq & Hminq & Hcmp)].
      * rewrite check_package_no_version_line by assumption. reflexivity.
      * apply (check_package_at_least q mnq mxq true sq); assumption.
Qed.

(** C4. If the installed version of one package of the table is below the
    minimum of that package, the version check returns [False], whatever
    the other packages are: nothing is assumed of them. *)
Theorem below_minimum_fails_check p mn mx s :
  (p, (mn, mx)) ∈ critical_packages →
  installed p s → below s mn →
  outcome check_critical_versions = Ok false.
Proof.
  intros Hin Hi Hbelow.
  destruct (critical_packages_truthy p mn mx Hin) as [Hmn _].
  apply (verdict_one_false p mn mx Hin), verdict_of_failure.
  rewrite (check_package_below p mn mx true s Hi Hmn Hbelow). reflexivity.
Qed.


(** A package without a version line can be taken out of the table: the
    loop returns the same and prints the same. *)
Lemma check_packages_skip p table ok :
  no_version_line p →
  let table' := filter (λ e, e.1 ≠ p) table in
  outcome (check_packages table ok) = outcome (check_packages table' ok)
  ∧ console (events (check_packages table ok))
    = console (events (check_packages table' ok)).
Proof.
  intros Hnone. cbn zeta.
  revert ok; induction table as [|[q [mn mx]] table IH]; intros ok.
  - split; reflexivity.
  - destruct (decide (q = p)) as [->|Hne].
    + rewrite filter_cons_False by (cbn; intros Hc; apply Hc; reflexivity).
      cbn [check_packages].
      rewrite check_package_no_version_line by assumption.
      rewrite outcome_bind, events_bind. cbn [outcome events fst snd].
      destruct (IH ok) as [-> <-]. split; reflexivity.
    + rewrite filter_cons_True by (cbn; exact Hne).
      cbn [check_packages].
      rewrite !outcome_bind, !events_bind, !console_app.
      rewrite check_package_verdict. cbn [outcome events fst snd].
      destruct (IH (ok && verdict q mn mx)) as [-> ->]. split; reflexivity.
Qed.

(** C10. When the query of a package of the table succeeds and no line of
    its output starts with [Version:], the iteration prints nothing and
    leaves [all_ok] as it is, and the check goes on: it returns and prints
    what it would with that package taken out of the table. *)
Theorem no_version_line_passes p mn mx :
  (p, (mn, mx)) ∈ critical_packages →
  no_version_line p →
  (∀ ok, check_package p mn mx ok = ([Call (pip_show p)], Ok ok))
  ∧ outcome check_critical_versions
    = outcome (check_packages (filter (λ e, e.1 ≠ p) critical_packages) true)
  ∧ console (events check_critical_versions)
    = (Py.nl +:+ "Checking critical package versions...")
        :: console (events (check_packages (filter (λ e, e.1 ≠ p) critical_packages) true)).
Proof.
  intros Hin Hnone. split.
  - intros ok. apply check_package_no_version_line, Hnone.
  - destruct (check_packages_skip p critical_packages true Hnone) as [Ho Hc].
    unfold check_critical_versions.
    rewrite outcome_bind, events_bind, console_app. cbn [outcome events fst snd print emit].
    rewrite Ho, Hc. split; reflexivity.
Qed.

End VersionCheck.

(** The iteration reads the environment through the query of its package
    only. *)
Lemma check_package_env {Version} (parse : string → result Version) lt gt
    (env env' : Env) p mn mx ok :
  run env' (pip_show p) = run env (pip_show p) →
  check_package parse lt gt env' p mn mx ok = check_package parse lt gt env p mn mx ok.
Proof. intros H. rewrite !check_package_unfold, H. reflexivity. Qed.

Lemma check_packages_env {Version} (parse : string → result Version) lt gt
    (env env' : Env) table ok :
  (∀ p, run env' (pip_show p) = run env (pip_show p)) →
  check_packages parse lt gt env' table ok = check_packages parse lt gt env table ok.
Proof.
  intros H. revert ok; induction table as [|[p [mn mx]] table IH]; intros ok.
  - reflexivity.
  - cbn [check_packages]. rewrite (check_package_env parse lt gt env env') by apply H.
    destruct (check_package parse lt gt env p mn mx ok) as [l [b|msg]]; [|reflexivity].
    cbn [bind]. rewrite IH. reflexivity.
Qed.

(** ** The model of [json] *)

Module JsonFacts.
Import Json.

Lemma append_nil_l (s : string) : "" +:+ s = s.
Proof. reflexivity. Qed.

Lemma append_cons c (a b : string) : String c a +:+ b = String c (a +:+ b).
Proof. reflexivity. Qed.

Lemma append_assoc (a b c : string) : (a +:+ b) +:+ c = a +:+ (b +:+ c).
Proof.
  induction a as [|x a IH]; [reflexivity|].
  rewrite !append_cons, IH. reflexivity.
Qed.

Lemma append_nil_r (a : string) : a +:+ "" = a.
Proof.
  induction a as [|x a IH]; [reflexivity|].
  rewrite append_cons, IH. reflexivity.
Qed.

Lemma length_append (a b : string) :
  String.length (a +:+ b) = String.length a + String.length b.
Proof.
  induction a as [|x a IH]; [reflexivity|].
  rewrite append_cons. cbn [String.length]. rewrite IH. reflexivity.
Qed.

(** *** Strings *)

Lemma scan_string_escape c tail :
  scan_string (escape c +:+ tail) =
    match scan_string tail with
    | Some (str, rest) => Some (String c str, rest)
    | None => None
    end.
Proof. destruct c as [[] [] [] [] [] [] [] []]; reflexivity. Qed.

Lemma scan_string_escape_string s rest :
  scan_string (escape_string s +:+ String dq rest) = Some (s, rest).
Proof.
  induction s as [|c s IH]; [reflexivity|].
  cbn [escape_string]. rewrite append_assoc, scan_string_escape, IH. reflexivity.
Qed.

Lemma scan_string_encode s rest :
  ∃ t, encode_string s +:+ rest = String dq t ∧ scan_string t = Some (s, rest).
Proof.
  exists (escape_string s +:+ String dq rest). split.
  - unfold encode_string. rewrite append_cons, append_assoc. reflexivity.
  - apply scan_string_escape_string.
Qed.

(** *** Integers *)

Lemma pretty_N_go_append x s r : pretty_N_go x s +:+ r = pretty_N_go x (s +:+ r).
Proof.
  revert s. induction (N.lt_wf_0 x) as [x _ IH]. intros s.
  destruct (decide (x = 0)%N) as [->|Hx].
  - rewrite !pretty_N_go_0. reflexivity.
  - rewrite (pretty_N_go_step x s), (pretty_N_go_step x (s +:+ r)) by lia.
    rewrite IH by (apply N.div_lt; lia). reflexivity.
Qed.

Lemma digit_pretty_N_char d : (d < 10)%N → Py.digit (pretty_N_char d) = Some d.
Proof.
  intros H.
  assert (d = 0 ∨ d = 1 ∨ d = 2 ∨ d = 3 ∨ d = 4 ∨ d = 5 ∨ d = 6 ∨ d = 7
          ∨ d = 8 ∨ d = 9)%N as Hd by lia.
  repeat (destruct Hd as [->|Hd]; [reflexivity|]). subst d. reflexivity.
Qed.

Lemma scan_digits_pretty x :
  ∃ k, ∀ acc t, scan_digits (pretty_N_go x t) acc = scan_digits t (acc * k + x)%N.
Proof.
  induction (N.lt_wf_0 x) as [x _ IH].
  destruct (decide (x = 0)%N) as [->|Hx].
  - exists 1%N. intros acc t. rewrite pretty_N_go_0. f_equal. lia.
  - destruct (IH (x `div` 10)%N) as [k Hk]; [apply N.div_lt; lia|].
    exists (10 * k)%N. intros acc t.
    rewrite pretty_N_go_step by lia. rewrite Hk. cbn [scan_digits].
    rewrite digit_pretty_N_char by (apply N.mod_lt; lia).
    f_equal. pose proof (N.div_mod x 10 ltac:(discriminate)). lia.
Qed.

Lemma pretty_N_go_head x t :
  (0 < x)%N →
  ∃ c s d, pretty_N_go x t = String c s ∧ Py.digit c = Some d ∧ d ≠ 0%N.
Proof.
  revert t. induction (N.lt_wf_0 x) as [x _ IH]. intros t Hx.
  rewrite pretty_N_go_step by lia.
  destruct (decide (x `div` 10 = 0)%N) as [Hq|Hq].
  - rewrite Hq, pretty_N_go_0.
    exists (pretty_N_char (x `mod` 10)), t, (x `mod` 10)%N.
    split; [reflexivity|]. split.
    + apply digit_pretty_N_char, N.mod_lt. lia.
    + pose proof (N.div_mod x 10) as Hdm. rewrite Hq in Hdm.
      specialize (Hdm ltac:(discriminate)). intros Hz. rewrite Hz in Hdm. lia.
  - apply IH; [apply N.div_lt; lia|apply N.neq_0_lt_0, Hq].
Qed.

Lemma scan_digits_no_digit t acc : no_digit t → scan_digits t acc = (acc, t).
Proof. destruct t as [|c t]; [reflexivity|]. cbn. intros ->. reflexivity. Qed.

Lemma scan_natural_pretty (x : N) rest :
  no_digit rest → scan_natural (pretty x +:+ rest) = Some (x, rest).
Proof.
  intros Hrest. unfold pretty, pretty_N.
  destruct (decide (x = 0)%N) as [->|Hx]; [reflexivity|].
  rewrite pretty_N_go_append, append_nil_l.
  destruct (pretty_N_go_head x rest) as (c & s & d & Heq & Hd & Hnz); [lia|].
  destruct (scan_digits_pretty x) as [k Hk].
  specialize (Hk 0%N rest). rewrite Heq in *. cbn [scan_digits] in Hk. rewrite Hd in Hk.
  unfold scan_natural. rewrite Hd.
  destruct d as [|p]; [contradiction|].
  replace (N.pos p) with (10 * 0 + N.pos p)%N by lia.
  rewrite Hk, scan_digits_no_digit by assumption. reflexivity.
Qed.

Lemma digit_head c d :
  Py.digit c = Some d →
  Ascii.eqb c dq = false ∧ Ascii.eqb c "[" = false ∧ Ascii.eqb c "{" = false
  ∧ Ascii.eqb c "n" = false ∧ Ascii.eqb c "t" = false ∧ Ascii.eqb c "f" = false
  ∧ Ascii.eqb "-" c = false ∧ Ascii.eqb "]" c = false ∧ is_ws c = false.
Proof.
  destruct c as [[] [] [] [] [] [] [] []]; intros H; vm_compute in H;
    try discriminate H; repeat split; reflexivity.
Qed.

Lemma pretty_N_head (x : N) rest :
  ∃ c s d, pretty x +:+ rest = String c s ∧ Py.digit c = Some d.
Proof.
  unfold pretty, pretty_N.
  destruct (decide (x = 0)%N) as [->|Hx].
  - exists "0"%char, rest, 0%N. split; reflexivity.
  - rewrite pretty_N_go_append.
    destruct (pretty_N_go_head x ("" +:+ rest)) as (c & s & d & Heq & Hd & _); [lia|].
    exists c, s, d. split; assumption.
Qed.

(** The text of an integer, and what its first character is. *)
Lemma pretty_Z_cases (z : Z) rest :
  (∃ x : N, z = Z.of_N x ∧ pretty z +:+ rest = pretty x +:+ rest)
  ∨ (∃ x : N, z = (- Z.of_N x)%Z ∧ pretty z +:+ rest = String "-" (pretty x +:+ rest)).
Proof.
  destruct z as [|p|p].
  - left. exists 0%N. split; reflexivity.
  - left. exists (N.pos p). split; reflexivity.
  - right. exists (N.pos p). split; reflexivity.
Qed.

Lemma scan_int_pretty (z : Z) rest :
  no_digit rest → scan_int (pretty z +:+ rest) = Some (z, rest).
Proof.
  intros Hrest.
  destruct (pretty_Z_cases z rest) as [(x & -> & ->)|(x & -> & ->)].
  - destruct (pretty_N_head x rest) as (c & s & d & Heq & Hd).
    unfold scan_int. rewrite Heq. cbn [after_prefix].
    destruct (digit_head c d Hd) as (_ & _ & _ & _ & _ & _ & -> & _).
    rewrite <- Heq, scan_natural_pretty by assumption. reflexivity.
  - unfold scan_int. cbn [after_prefix]. rewrite Ascii.eqb_refl.
    rewrite scan_natural_pretty by assumption. reflexivity.
Qed.

(** *** The equations of the scanner *)

Lemma scan_once_string fuel s :
  scan_once (S fuel) (String dq s) =
    match scan_string s with
    | Some (str, rest) => Some (PyStr str, rest)
    | None => None
    end.
Proof. reflexivity. Qed.

Lemma scan_once_array fuel s :
  scan_once (S fuel) (String "[" s) =
    match after_prefix "]" (skip_ws s) with
    | Some rest => Some (PyList [], rest)
    | None =>
        match scan_items fuel (skip_ws s) with
        | Some (items, rest) => Some (PyList items, rest)
        | None => None
        end
    end.
Proof. reflexivity. Qed.

Lemma scan_once_object fuel s :
  scan_once (S fuel) (String "{" s) =
    match after_prefix "}" (skip_ws s) with
    | Some rest => Some (PyDict [], rest)
    | None =>
        match scan_members fuel (skip_ws s) with
        | Some (pairs, rest) => Some (PyDict (dict_of_pairs pairs), rest)
        | None => None
        end
    end.
Proof. reflexivity. Qed.

Lemma scan_once_number fuel c s :
  Ascii.eqb c dq = false → Ascii.eqb c "[" = false → Ascii.eqb c "{" = false →
  Ascii.eqb c "n" = false → Ascii.eqb c "t" = false → Ascii.eqb c "f" = false →
  scan_once (S fuel) (String c s) =
    match scan_int (String c s) with
    | Some (z, rest) => Some (PyInt z, rest)
    | None => None
    end.
Proof. intros H1 H2 H3 H4 H5 H6. cbn [scan_once]. rewrite H1, H2, H3, H4, H5, H6. reflexivity. Qed.

Lemma scan_items_step fuel s :
  scan_items (S fuel) s =
    match scan_once fuel s with
    | Some (v, rest) =>
        match after_prefix "]" (skip_ws rest) with
        | Some rest' => Some ([v], rest')
        | None =>
            match after_prefix "," (skip_ws rest) with
            | Some rest' =>
                match scan_items fuel (skip_ws rest') with
                | Some (items, rest'') => Some (v :: items, rest'')
                | None => None
                end
            | None => None
            end
        end
    | None => None
    end.
Proof. reflexivity. Qed.

Lemma scan_members_step fuel s :
  scan_members (S fuel) (String dq s) =
    match scan_string s with
    | Some (key, rest) =>
        match after_prefix ":" (skip_ws rest) with
        | Some rest1 =>
            match scan_once fuel (skip_ws rest1) with
            | Some (v, rest2) =>
                match after_prefix "}" (skip_ws rest2) with
                | Some rest3 => Some ([(key, v)], rest3)
                | None =>
                    match after_prefix "," (skip_ws rest2) with
                    | Some rest3 =>
                        match scan_members fuel (skip_ws rest3) with
                        | Some (pairs, rest4) => Some ((key, v) :: pairs, rest4)
                        | None => None
                        end
                    | None => None
                    end
                end
            | None => None
            end
        | None => None
        end
    | None => None
    end.
Proof. reflexivity. Qed.

(** *** Whitespace *)

Lemma skip_ws_spaces k s : skip_ws (spaces k +:+ s) = skip_ws s.
Proof. induction k as [|k IH]; [reflexivity|]. exact IH. Qed.

Lemma skip_ws_newline_indent n lvl s : skip_ws (newline_indent n lvl +:+ s) = skip_ws s.
Proof.
  unfold newline_indent. rewrite append_assoc.
  change (skip_ws (Py.nl +:+ spaces (n * lvl) +:+ s))
    with (skip_ws (spaces (n * lvl) +:+ s)).
  apply skip_ws_spaces.
Qed.

Lemma skip_ws_head c s : is_ws c = false → skip_ws (String c s) = String c s.
Proof. intros H. cbn [skip_ws]. rewrite H. reflexivity. Qed.

(** *** Induction on values *)

Lemma value_ind (P : value → Prop) :
  P PyNone → (∀ b, P (PyBool b)) → (∀ z, P (PyInt z)) → (∀ s, P (PyStr s)) →
  (∀ items, Forall P items → P (PyList items)) →
  (∀ entries, Forall (λ e, P e.2) entries → P (PyDict entries)) →
  ∀ v, P v.
Proof.
  intros HNone HBool HInt HStr HList HDict.
  fix IH 1. intros [| b | z | [] | s | items | entries].
  - exact HNone.
  - apply HBool.
  - apply HInt.
  - apply HStr.
  - apply HList. induction items as [|x items IHitems]; constructor.
    + apply IH.
    + exact IHitems.
  - apply HDict. induction entries as [|[k x] entries IHentries]; constructor.
    + apply IH.
    + exact IHentries.
Qed.

(** *** The text of a value *)

Lemma dump_sequence_cons {A} (dump : A → string) separator closing x l :
  dump_sequence dump separator closing (x :: l) =
    dump x +:+ match l with
               | [] => closing
               | _ :: _ => separator +:+ dump_sequence dump separator closing l
               end.
Proof. destruct l; reflexivity. Qed.

(** A value starts with a character that is neither whitespace nor a
    closing bracket. *)
Lemma dumps_head n lvl v rest :
  ∃ c s, dumps_at n lvl v +:+ rest = String c s
         ∧ is_ws c = false ∧ Ascii.eqb "]" c = false.
Proof.
  destruct v as [| [] | z | [] | str | [|x items] | [|e entries]];
    try (eexists _, _; split; [reflexivity|split; reflexivity]).
  change (dumps_at n lvl (PyInt z)) with (pretty z).
  destruct (pretty_Z_cases z rest) as [(x & _ & ->)|(x & _ & ->)].
  - destruct (pretty_N_head x rest) as (c & s & d & -> & Hd).
    exists c, s. split; [reflexivity|].
    destruct (digit_head c d Hd) as (_ & _ & _ & _ & _ & _ & _ & ? & ?). split; assumption.
  - eexists _, _; split; [reflexivity|split; reflexivity].
Qed.

Lemma skip_ws_dumps n lvl v rest :
  skip_ws (dumps_at n lvl v +:+ rest) = dumps_at n lvl v +:+ rest.
Proof.
  destruct (dumps_head n lvl v rest) as (c & s & -> & Hws & _).
  apply skip_ws_head, Hws.
Qed.

Lemma not_closing_dumps n lvl v rest :
  after_prefix "]" (dumps_at n lvl v +:+ rest) = None.
Proof.
  destruct (dumps_head n lvl v rest) as (c & s & -> & _ & Hc).
  cbn [after_prefix]. rewrite Hc. reflexivity.
Qed.

(** After a comma comes the next element. *)
Lemma after_comma (close : ascii) s :
  Ascii.eqb close "," = false →
  after_prefix (String close "") (skip_ws ("," +:+ s)) = None
  ∧ after_prefix "," (skip_ws ("," +:+ s)) = Some s.
Proof.
  intros H. change (skip_ws ("," +:+ s)) with (String "," s).
  cbn [after_prefix]. rewrite H. split; reflexivity.
Qed.

(** *** Scanning what was dumped *)

Lemma scan_items_dumps n lvl rest items :
  items ≠ [] → Forall scans_back items → all_with well_formed items →
  ∀ fuel, sum_with size items ≤ fuel →
    scan_items fuel
      (dump_sequence (dumps_at n (S lvl)) ("," +:+ newline_indent n (S lvl))
         (newline_indent n lvl +:+ "]") items +:+ rest)
    = Some (items, rest).
Proof.
  induction items as [|x xs IH]; [contradiction|].
  intros _ HP Hwf fuel Hfuel.
  apply Forall_cons in HP as [Hx Hxs]. destruct Hwf as [Hwx Hwxs].
  cbn [sum_with] in Hfuel. destruct fuel as [|fuel]; [lia|].
  rewrite scan_items_step, dump_sequence_cons, append_assoc.
  rewrite Hx; [|exact Hwx|lia|destruct xs; reflexivity].
  destruct xs as [|y ys].
  - rewrite append_assoc, skip_ws_newline_indent. reflexivity.
  - rewrite !append_assoc.
    destruct (after_comma "]" (newline_indent n (S lvl) +:+
                dump_sequence (dumps_at n (S lvl)) ("," +:+ newline_indent n (S lvl))
                  (newline_indent n lvl +:+ "]") (y :: ys) +:+ rest) eq_refl)
      as [-> ->].
    rewrite skip_ws_newline_indent.
    rewrite dump_sequence_cons, append_assoc, skip_ws_dumps.
    rewrite <- append_assoc, <- dump_sequence_cons.
    rewrite IH; [reflexivity|discriminate|assumption|assumption|lia].
Qed.

Lemma scan_members_key fuel k s :
  scan_members (S fuel) (encode_string k +:+ s) =
    match after_prefix ":" (skip_ws s) with
    | Some rest1 =>
        match scan_once fuel (skip_ws rest1) with
        | Some (v, rest2) =>
            match after_prefix "}" (skip_ws rest2) with
            | Some rest3 => Some ([(k, v)], rest3)
            | None =>
                match after_prefix "," (skip_ws rest2) with
                | Some rest3 =>
                    match scan_members fuel (skip_ws rest3) with
                    | Some (pairs, rest4) => Some ((k, v) :: pairs, rest4)
                    | None => None
                    end
                | None => None
                end
            end
        | None => None
        end
    | None => None
    end.
Proof.
  destruct (scan_string_encode k s) as (t & -> & Ht).
  rewrite scan_members_step, Ht. reflexivity.
Qed.

Lemma after_colon s :
  after_prefix ":" (skip_ws (": " +:+ s)) = Some (" " +:+ s)
  ∧ skip_ws (" " +:+ s) = skip_ws s.
Proof. split; reflexivity. Qed.

Lemma scan_members_dumps n lvl rest entries :
  entries ≠ [] → Forall (λ e, scans_back e.2) entries →
  all_with (λ e, well_formed e.2) entries →
  ∀ fuel, sum_with (λ e, size e.2) entries ≤ fuel →
    scan_members fuel
      (dump_sequence (λ e, encode_string e.1 +:+ ": " +:+ dumps_at n (S lvl) e.2)
         ("," +:+ newline_indent n (S lvl)) (newline_indent n lvl +:+ "}") entries
       +:+ rest)
    = Some (entries, rest).
Proof.
  induction entries as [|[k x] xs IH]; [contradiction|].
  intros _ HP Hwf fuel Hfuel.
  apply Forall_cons in HP as [Hx Hxs]. destruct Hwf as [Hwx Hwxs].
  cbn [sum_with snd] in Hfuel. cbn [snd] in Hx, Hwx.
  destruct fuel as [|fuel]; [lia|].
  rewrite dump_sequence_cons. cbn [fst snd]. rewrite !append_assoc.
  rewrite scan_members_key.
  match goal with
  | |- context [after_prefix ":" (skip_ws (": " +:+ ?s))] =>
      destruct (after_colon s) as [-> ->]
  end.
  rewrite skip_ws_dumps.
  rewrite Hx; [|exact Hwx|lia|destruct xs; reflexivity].
  destruct xs as [|[k' y] ys]; rewrite !append_assoc.
  - rewrite skip_ws_newline_indent. reflexivity.
  - match goal with
    | |- context [after_prefix "}" (skip_ws ("," +:+ ?s))] =>
        destruct (after_comma "}" s eq_refl) as [-> ->]
    end.
    rewrite skip_ws_newline_indent.
    assert (Hskip : ∀ s, skip_ws (encode_string k' +:+ s) = encode_string k' +:+ s)
      by reflexivity.
    rewrite dump_sequence_cons. cbn [fst snd]. rewrite !append_assoc, Hskip.
    specialize (IH ltac:(discriminate) Hxs Hwxs fuel ltac:(cbn [sum_with snd] in *; lia)).
    rewrite dump_sequence_cons in IH. cbn [fst snd] in IH.
    rewrite !append_assoc in IH. rewrite IH. reflexivity.
Qed.

(** *** Dictionaries *)

Lemma dict_set_fresh {A} (d : list (string * A)) k v :
  k ∉ d.*1 → dict_set d k v = d ++ [(k, v)].
Proof.
  induction d as [|[k' v'] d IH]; intros Hk; [reflexivity|].
  cbn [dict_set]. cbn in Hk. apply not_elem_of_cons in Hk as [Hne Hk].
  destruct (String.eqb_spec k' k) as [->|_]; [contradiction|].
  rewrite IH by assumption. reflexivity.
Qed.

Lemma foldl_dict_set_nodup {A} (acc pairs : list (string * A)) :
  NoDup (acc.*1 ++ pairs.*1) →
  foldl (λ d e, dict_set d e.1 e.2) acc pairs = acc ++ pairs.
Proof.
  revert acc. induction pairs as [|[k v] pairs IH]; intros acc Hnd.
  - rewrite app_nil_r. reflexivity.
  - cbn [foldl fst snd]. cbn in Hnd.
    apply NoDup_app in Hnd as (Hacc & Hdisj & Hpairs).
    apply NoDup_cons in Hpairs as [Hk Hpairs].
    rewrite dict_set_fresh.
    + rewrite IH.
      * rewrite <- app_assoc. reflexivity.
      * rewrite fmap_app. cbn. rewrite <- app_assoc. cbn.
        apply NoDup_app. split; [exact Hacc|]. split.
        -- exact Hdisj.
        -- apply NoDup_cons. split; assumption.
    + intros Hin. apply (Hdisj k Hin). apply elem_of_cons. left. reflexivity.
Qed.

Lemma dict_of_pairs_nodup {A} (pairs : list (string * A)) :
  NoDup pairs.*1 → dict_of_pairs pairs = pairs.
Proof. intros H. unfold dict_of_pairs. rewrite foldl_dict_set_nodup; [reflexivity|exact H]. Qed.

(** *** The round trip of one value *)

Lemma scan_once_dumps v : scans_back v.
Proof.
  induction v as [| b | z | s | items IH | entries IH] using value_ind;
    intros n lvl fuel rest Hwf Hfuel Hrest;
    (destruct fuel as [|fuel]; [cbn in Hfuel; lia|]).
  - reflexivity.
  - destruct b; reflexivity.
  - change (dumps_at n lvl (PyInt z)) with (pretty z).
    pose proof (scan_int_pretty z rest Hrest) as Hscan.
    destruct (pretty_Z_cases z rest) as [(x & _ & Heq)|(x & _ & Heq)].
    + destruct (pretty_N_head x rest) as (c & t & d & Hc & Hd).
      rewrite Heq, Hc in *.
      destruct (digit_head c d Hd) as (H1 & H2 & H3 & H4 & H5 & H6 & _).
      rewrite scan_once_number, Hscan by assumption. reflexivity.
    + rewrite Heq in *. rewrite scan_once_number, Hscan by reflexivity. reflexivity.
  - change (dumps_at n lvl (PyStr s)) with (encode_string s).
    destruct (scan_string_encode s rest) as (t & -> & Ht).
    rewrite scan_once_string, Ht. reflexivity.
  - destruct items as [|x xs]; [reflexivity|].
    change (dumps_at n lvl (PyList (x :: xs)))
      with ("[" +:+ newline_indent n (S lvl) +:+
            dump_sequence (dumps_at n (S lvl)) ("," +:+ newline_indent n (S lvl))
              (newline_indent n lvl +:+ "]") (x :: xs)).
    rewrite !append_assoc.
    change ("[" +:+ ?s) with (String "[" s).
    rewrite scan_once_array, skip_ws_newline_indent.
    cbn [size] in Hfuel. cbn [well_formed] in Hwf.
    pose proof (scan_items_dumps n lvl rest (x :: xs) ltac:(discriminate) IH Hwf
                  fuel ltac:(lia)) as Hitems.
    rewrite dump_sequence_cons, append_assoc in *.
    rewrite skip_ws_dumps, not_closing_dumps, Hitems. reflexivity.
  - destruct entries as [|[k x] xs]; [reflexivity|].
    change (dumps_at n lvl (PyDict ((k, x) :: xs)))
      with ("{" +:+ newline_indent n (S lvl) +:+
            dump_sequence (λ e, encode_string e.1 +:+ ": " +:+ dumps_at n (S lvl) e.2)
              ("," +:+ newline_indent n (S lvl))
              (newline_indent n lvl +:+ "}") ((k, x) :: xs)).
    rewrite !append_assoc.
    change ("{" +:+ ?s) with (String "{" s).
    rewrite scan_once_object, skip_ws_newline_indent.
    cbn [size] in Hfuel. cbn [well_formed] in Hwf. destruct Hwf as [Hnd Hwf].
    pose proof (scan_members_dumps n lvl rest ((k, x) :: xs) ltac:(discriminate) IH Hwf
                  fuel ltac:(lia)) as Hmembers.
    rewrite dump_sequence_cons in *. cbn [fst snd] in *. rewrite !append_assoc in *.
    assert (Hskip : ∀ s, skip_ws (encode_string k +:+ s) = encode_string k +:+ s)
      by reflexivity.
    assert (Hopen : ∀ s, after_prefix "}" (encode_string k +:+ s) = None)
      by reflexivity.
    rewrite Hskip, Hopen, Hmembers, dict_of_pairs_nodup by exact Hnd. reflexivity.
Qed.

(** *** Enough fuel *)

Lemma sum_with_dump_sequence {A} (sz : A → nat) (dump : A → string) separator closing l :
  Forall (λ x, sz x ≤ String.length (dump x)) l →
  1 ≤ String.length separator → 1 ≤ String.length closing →
  sum_with sz l ≤ String.length (dump_sequence dump separator closing l).
Proof.
  intros Hl Hsep Hclose. induction Hl as [|x l Hx Hl IH]; [cbn; lia|].
  rewrite dump_sequence_cons. cbn [sum_with]. rewrite length_append.
  destruct l as [|y l]; [cbn [sum_with]; lia|].
  rewrite length_append. lia.
Qed.

Lemma length_newline_indent n lvl : 1 ≤ String.length (newline_indent n lvl).
Proof.
  unfold newline_indent. rewrite length_append.
  change (String.length Py.nl) with 1. lia.
Qed.

Lemma size_le_length v : ∀ n lvl, size v ≤ String.length (dumps_at n lvl v).
Proof.
  induction v as [| b | z | s | items IH | entries IH] using value_ind; intros n lvl.
  - cbn. lia.
  - destruct b; cbn; lia.
  - change (dumps_at n lvl (PyInt z)) with (pretty z).
    rewrite <- (append_nil_r (pretty z)).
    destruct (pretty_Z_cases z "") as [(x & _ & ->)|(x & _ & ->)].
    + destruct (pretty_N_head x "") as (c & t & d & -> & _). cbn. lia.
    + cbn. lia.
  - cbn. lia.
  - destruct items as [|x xs]; [cbn; lia|].
    change (dumps_at n lvl (PyList (x :: xs)))
      with ("[" +:+ newline_indent n (S lvl) +:+
            dump_sequence (dumps_at n (S lvl)) ("," +:+ newline_indent n (S lvl))
              (newline_indent n lvl +:+ "]") (x :: xs)).
    rewrite !length_append. cbn [size].
    pose proof (sum_with_dump_sequence size (dumps_at n (S lvl))
                  ("," +:+ newline_indent n (S lvl)) (newline_indent n lvl +:+ "]")
                  (x :: xs)) as H.
    rewrite !length_append in H.
    pose proof (length_newline_indent n lvl).
    pose proof (eq_refl : String.length "," = 1).
    pose proof (eq_refl : String.length "[" = 1).
    pose proof (eq_refl : String.length "{" = 1).
    lapply H; [clear H; intros H|].
    + specialize (H ltac:(lia) ltac:(lia)). lia.
    + eapply Forall_impl; [exact IH|]. intros v Hv. apply Hv.
  - destruct entries as [|[k x] xs]; [cbn; lia|].
    change (dumps_at n lvl (PyDict ((k, x) :: xs)))
      with ("{" +:+ newline_indent n (S lvl) +:+
            dump_sequence (λ e, encode_string e.1 +:+ ": " +:+ dumps_at n (S lvl) e.2)
              ("," +:+ newline_indent n (S lvl))
              (newline_indent n lvl +:+ "}") ((k, x) :: xs)).
    rewrite !length_append. cbn [size].
    pose proof (sum_with_dump_sequence (λ e : string * value, size e.2)
                  (λ e, encode_string e.1 +:+ ": " +:+ dumps_at n (S lvl) e.2)
                  ("," +:+ newline_indent n (S lvl)) (newline_indent n lvl +:+ "}")
                  ((k, x) :: xs)) as H.
    rewrite !length_append in H.
    pose proof (length_newline_indent n lvl).
    pose proof (eq_refl : String.length "," = 1).
    pose proof (eq_refl : String.length "[" = 1).
    pose proof (eq_refl : String.length "{" = 1).
    lapply H; [clear H; intros H|].
    + specialize (H ltac:(lia) ltac:(lia)). lia.
    + eapply Forall_impl; [exact IH|]. intros e He. cbn beta.
      rewrite !length_append. specialize (He n (S lvl)). lia.
Qed.

(** The round trip of a Python object. *)
Lemma loads_dumps_well_formed n v : well_formed v → loads (dumps n v) = Ok v.
Proof.
  intros Hwf. unfold loads, dumps.
  pose proof (skip_ws_dumps n 0 v "") as Hskip.
  pose proof (scan_once_dumps v n 0 (S (String.length (dumps_at n 0 v))) "" Hwf) as Hscan.
  rewrite append_nil_r in Hskip, Hscan.
  rewrite Hskip, Hscan; [reflexivity| |exact I].
  pose proof (size_le_length v n 0). lia.
Qed.

(** *** What the scanner returns is a Python object *)

Lemma all_with_Forall {A} (P : A → Prop) l : all_with P l ↔ Forall P l.
Proof.
  induction l as [|x l IH]; cbn [all_with].
  - split; [constructor|trivial].
  - rewrite Forall_cons, IH. reflexivity.
Qed.

Lemma dict_set_keys {A} (d : list (string * A)) k v :
  NoDup d.*1 → NoDup (dict_set d k v).*1 ∧ ∀ k', k' ∈ (dict_set d k v).*1 → k' = k ∨ k' ∈ d.*1.
Proof.
  induction d as [|[k0 v0] d IH]; intros Hnd.
  - cbn. split.
    + apply NoDup_singleton.
    + intros k' Hin. apply list_elem_of_singleton in Hin. left. exact Hin.
  - cbn [dict_set]. cbn in Hnd. apply NoDup_cons in Hnd as [Hk0 Hnd].
    destruct (IH Hnd) as [IH1 IH2].
    destruct (String.eqb_spec k0 k) as [->|Hne]; cbn.
    + split; [apply NoDup_cons; split; assumption|]. intros k' Hin. right. exact Hin.
    + split.
      * apply NoDup_cons. split; [|exact IH1].
        intros Hin. destruct (IH2 k0 Hin) as [->|Hin']; contradiction.
      * intros k' Hin. apply elem_of_cons in Hin as [->|Hin].
        -- right. apply elem_of_cons. left. reflexivity.
        -- destruct (IH2 k' Hin) as [->|Hin']; [left; reflexivity|].
           right. apply elem_of_cons. right. exact Hin'.
Qed.

Lemma dict_set_values {A} (P : A → Prop) (d : list (string * A)) k v :
  Forall (λ e, P e.2) d → P v → Forall (λ e, P e.2) (dict_set d k v).
Proof.
  intros Hd Hv. induction Hd as [|[k0 v0] d H0 Hd IH]; cbn [dict_set].
  - constructor; [exact Hv|constructor].
  - destruct (String.eqb k0 k); constructor; assumption.
Qed.

Lemma dict_of_pairs_object {A} (P : A → Prop) (pairs : list (string * A)) :
  Forall (λ e, P e.2) pairs →
  NoDup (dict_of_pairs pairs).*1 ∧ Forall (λ e, P e.2) (dict_of_pairs pairs).
Proof.
  unfold dict_of_pairs.
  assert (Hgen : ∀ acc : list (string * A),
            NoDup acc.*1 → Forall (λ e, P e.2) acc → Forall (λ e, P e.2) pairs →
            NoDup (foldl (λ d e, dict_set d e.1 e.2) acc pairs).*1
            ∧ Forall (λ e, P e.2) (foldl (λ d e, dict_set d e.1 e.2) acc pairs)).
  { induction pairs as [|[k v] pairs IH]; intros acc Hnd Hacc Hpairs.
    - split; assumption.
    - apply Forall_cons in Hpairs as [Hv Hpairs]. cbn [foldl fst snd].
      apply IH; [apply dict_set_keys, Hnd|apply dict_set_values; assumption|exact Hpairs]. }
  intros H. apply Hgen; [constructor|constructor|exact H].
Qed.

(** Takes a successful scan apart, one [match] at a time. *)
Ltac scan_cases H :=
  repeat match type of H with
         | context [match ?x with _ => _ end] => destruct x eqn:?; try discriminate H
         | context [if ?x then _ else _] => destruct x eqn:?; try discriminate H
         end;
  try (injection H as <- <-).

Lemma scan_well_formed fuel :
  (∀ s v r, scan_once fuel s = Some (v, r) → well_formed v)
  ∧ (∀ s l r, scan_items fuel s = Some (l, r) → Forall well_formed l)
  ∧ (∀ s ps r, scan_members fuel s = Some (ps, r) →
       Forall (λ e : string * value, well_formed e.2) ps).
Proof.
  induction fuel as [|fuel (IHonce & IHitems & IHmembers)].
  - repeat split; intros; discriminate.
  - split; [|split].
    + intros s v r H. destruct s as [|c s]; [discriminate H|].
      cbn [scan_once] in H.
      destruct (Ascii.eqb c dq); [scan_cases H; exact I|].
      destruct (Ascii.eqb c "[").
      { destruct (after_prefix "]" (skip_ws s)); [injection H as <- <-; exact I|].
        destruct (scan_items fuel (skip_ws s)) as [[items rest]|] eqn:Hitems;
          [|discriminate H].
        injection H as <- <-. cbn [well_formed].
        apply all_with_Forall. eapply IHitems, Hitems. }
      destruct (Ascii.eqb c "{").
      { destruct (after_prefix "}" (skip_ws s));
          [injection H as <- <-; split; [constructor|exact I]|].
        destruct (scan_members fuel (skip_ws s)) as [[pairs rest]|] eqn:Hmembers;
          [|discriminate H].
        injection H as <- <-. cbn [well_formed].
        rewrite all_with_Forall.
        apply (dict_of_pairs_object well_formed). eapply IHmembers, Hmembers. }
      scan_cases H; exact I.
    + intros s l r H. rewrite scan_items_step in H.
      destruct (scan_once fuel s) as [[v rest]|] eqn:Hv; [|discriminate H].
      apply IHonce in Hv.
      destruct (after_prefix "]" (skip_ws rest));
        [injection H as <- <-; constructor; [exact Hv|constructor]|].
      destruct (after_prefix "," (skip_ws rest)) as [rest'|]; [|discriminate H].
      destruct (scan_items fuel (skip_ws rest')) as [[items rest'']|] eqn:Hitems;
        [|discriminate H].
      injection H as <- <-. constructor; [exact Hv|]. eapply IHitems, Hitems.
    + intros s ps r H. cbn [scan_members] in H.
      destruct (after_prefix (String dq "") s) as [s1|]; [|discriminate H].
      destruct (scan_string s1) as [[key rest]|]; [|discriminate H].
      destruct (after_prefix ":" (skip_ws rest)) as [rest1|]; [|discriminate H].
      destruct (scan_once fuel (skip_ws rest1)) as [[v rest2]|] eqn:Hv; [|discriminate H].
      apply IHonce in Hv.
      destruct (after_prefix "}" (skip_ws rest2));
        [injection H as <- <-; constructor; [exact Hv|constructor]|].
      destruct (after_prefix "," (skip_ws rest2)) as [rest3|]; [|discriminate H].
      destruct (scan_members fuel (skip_ws rest3)) as [[pairs rest4]|] eqn:Hmembers;
        [|discriminate H].
      injection H as <- <-. constructor; [exact Hv|]. eapply IHmembers, Hmembers.
Qed.

Lemma loads_well_formed s v : loads s = Ok v → well_formed v.
Proof.
  unfold loads. intros H.
  destruct (scan_once _ _) as [[v' rest]|] eqn:Hscan; [|discriminate H].
  destruct (skip_ws rest); [|discriminate H].
  injection H as <-.
  eapply (proj1 (scan_well_formed _)), Hscan.
Qed.

(** The round trip of [json]: what [loads] returns is dumped to a text that
    [loads] maps back to it. *)
Lemma loads_dumps s v n : loads s = Ok v → loads (dumps n v) = Ok v.
Proof. intros H. apply loads_dumps_well_formed. eapply loads_well_formed, H. Qed.

End JsonFacts.

(** ** The conflict check and the entry point *)

Section EntryPoint.

Context {Version : Type}.
Variable parse : string → result Version.
Variable version_lt : Version → Version → bool.
Variable version_gt : Version → Version → bool.
Context {F : Type}.
Variable loads : string → result (pyobj F).
Variable dumps : nat → pyobj F → string.
Variable env : Env.

Local Abbreviation check_critical_versions :=
  (check_critical_versions parse version_lt version_gt env).
Local Abbreviation generate_dependency_report :=
  (generate_dependency_report loads dumps env).
Local Abbreviation main := (main parse version_lt version_gt loads dumps env).

(** The conflict check, by what [pip check] answers. *)
Lemma check_dependency_conflicts_unfold :
  check_dependency_conflicts env =
    match run env ["pip"; "check"] with
    | Ok r =>
        if Z.eqb (returncode r) 0 then
          ([Print "Checking for dependency conflicts..."; Call ["pip"; "check"];
            Print "No dependency conflicts found"], Ok true)
        else
          ([Print "Checking for dependency conflicts..."; Call ["pip"; "check"];
            Print "Dependency conflicts detected:"; Print (stdout r)], Ok false)
    | Raise msg =>
        ([Print "Checking for dependency conflicts..."; Call ["pip"; "check"];
          Print ("Error checking dependencies: " +:+ msg)], Ok false)
    end.
Proof.
  unfold check_dependency_conflicts, subprocess_run.
  destruct (run env _) as [r|msg]; [|reflexivity].
  cbn [print emit lift bind app try_except].
  destruct (Z.eqb (returncode r) 0); reflexivity.
Qed.

(** What the conflict check returns. *)
Lemma check_dependency_conflicts_outcome :
  outcome (check_dependency_conflicts env)
    = Ok (match run env ["pip"; "check"] with
          | Ok r => Z.eqb (returncode r) 0
          | Raise _ => false
          end).
Proof.
  rewrite check_dependency_conflicts_unfold.
  destruct (run env ["pip"; "check"]) as [r|msg]; [|reflexivity].
  destruct (Z.eqb (returncode r) 0); reflexivity.
Qed.

(** C6. The conflict check returns [True] exactly when [pip check] exits
    with status 0; when it reports conflicts or the call itself raises, the
    check returns [False]: in no case does an exception leave it. *)
Theorem conflict_check_result :
  outcome (check_dependency_conflicts env)
    = Ok (match run env ["pip"; "check"] with
          | Ok r => Z.eqb (returncode r) 0
          | Raise _ => false
          end)
  ∧ (outcome (check_dependency_conflicts env) = Ok true
     ↔ ∃ r, run env ["pip"; "check"] = Ok r ∧ returncode r = 0%Z)
  ∧ (outcome (check_dependency_conflicts env) = Ok false
     ↔ (∃ r, run env ["pip"; "check"] = Ok r ∧ returncode r ≠ 0%Z)
       ∨ ∃ msg, run env ["pip"; "check"] = Raise msg).
Proof.
  rewrite check_dependency_conflicts_unfold.
  destruct (run env ["pip"; "check"]) as [r|msg].
  - destruct (Z.eqb_spec (returncode r) 0) as [Hz|Hnz]; cbn [outcome snd].
    + split; [reflexivity|]. split; split.
      * intros _. exists r. split; [reflexivity|exact Hz].
      * reflexivity.
      * discriminate.
      * intros [(r' & Hr & Hne)|(msg & Hr)]; [|discriminate Hr].
        injection Hr as <-. contradiction.
    + split; [reflexivity|]. split; split.
      * discriminate.
      * intros (r' & Hr & Hz). injection Hr as <-. contradiction.
      * intros _. left. exists r. split; [reflexivity|exact Hnz].
      * reflexivity.
  - cbn [outcome snd]. split; [reflexivity|]. split; split.
    + discriminate.
    + intros (r & Hr & _). discriminate Hr.
    + intros _. right. exists msg. reflexivity.
    + reflexivity.
Qed.

(** The report step returns, whatever happens in it. *)
Lemma generate_dependency_report_returns :
  outcome generate_dependency_report = Ok tt.
Proof.
  unfold generate_dependency_report.
  rewrite outcome_bind. cbn [outcome print emit snd].
  rewrite outcome_try.
  destruct (outcome _) as [[]|msg]; reflexivity.
Qed.

(** The checks return a boolean, whatever happens in them. *)
Lemma check_dependency_conflicts_returns :
  ∃ b, outcome (check_dependency_conflicts env) = Ok b.
Proof. rewrite check_dependency_conflicts_outcome. eauto. Qed.

Lemma check_critical_versions_returns :
  ∃ b, outcome check_critical_versions = Ok b.
Proof. rewrite check_critical_versions_verdict. cbn; eauto. Qed.

(** The exit status, from the results of the two checks. *)
Lemma exit_status_main conflicts_ok versions_ok :
  outcome (check_dependency_conflicts env) = Ok conflicts_ok →
  outcome check_critical_versions = Ok versions_ok →
  exit_status main = if conflicts_ok && versions_ok then 0%Z else 1%Z.
Proof.
  intros Hc Hv. unfold exit_status, main.
  rewrite outcome_bind, Hc, outcome_bind, Hv, outcome_bind.
  rewrite generate_dependency_report_returns.
  destruct (conflicts_ok && versions_ok); reflexivity.
Qed.

End EntryPoint.

(** The command of the report step. *)
Lemma pip_show_not_list p : pip_show p ≠ ["pip"; "list"; "--format=json"].
Proof. unfold pip_show. intros H. discriminate H. Qed.

(** C1. The exit status is 0 exactly when the conflict check and the
    version check both return [True], and 1 in every other case; the report
    step has no part in it: whatever the listing command answers, whatever
    [json] does with the answer and whatever the disk does, the exit status
    is the same. *)
Theorem exit_status_is_conjunction {Version} (parse : string → result Version) lt gt
    {F} (loads : string → result (pyobj F)) dumps (env : Env) :
  (exit_status (main parse lt gt loads dumps env) = 0%Z
   ↔ outcome (check_dependency_conflicts env) = Ok true
     ∧ outcome (check_critical_versions parse lt gt env) = Ok true)
  ∧ (exit_status (main parse lt gt loads dumps env) = 0%Z
     ∨ exit_status (main parse lt gt loads dumps env) = 1%Z)
  ∧ (∀ F' (loads' : string → result (pyobj F')) dumps' (env' : Env),
       (∀ argv, argv ≠ ["pip"; "list"; "--format=json"] → run env' argv = run env argv) →
       exit_status (main parse lt gt loads' dumps' env')
       = exit_status (main parse lt gt loads dumps env)).
Proof.
  destruct (check_dependency_conflicts_returns env) as [c Hc].
  destruct (check_critical_versions_returns parse lt gt env) as [v Hv].
  rewrite (exit_status_main parse lt gt loads dumps env c v Hc Hv), Hc, Hv.
  split; [|split].
  - destruct c, v; cbn; split; try discriminate; try tauto;
      intros [H1 H2]; discriminate.
  - destruct (c && v); [left|right]; reflexivity.
  - intros F' loads' dumps' env' Hagree.
    apply exit_status_main.
    + rewrite <- Hc, !check_dependency_conflicts_unfold.
      rewrite Hagree by discriminate. reflexivity.
    + rewrite <- Hv. unfold check_critical_versions.
      rewrite (check_packages_env parse lt gt env env'); [reflexivity|].
      intros p. apply Hagree, pip_show_not_list.
Qed.

(** ** The version check with the model of [packaging.version] *)

Module Release.

Abbreviation check_package := (check_package Pep440.parse Pep440.lt Pep440.gt).
Abbreviation check_critical_versions :=
  (check_critical_versions Pep440.parse Pep440.lt Pep440.gt).
Abbreviation main := (main Pep440.parse Pep440.lt Pep440.gt).
Abbreviation below := (below Pep440.parse Pep440.lt).
Abbreviation at_least := (at_least Pep440.parse Pep440.lt).
Abbreviation above := (above Pep440.parse Pep440.gt).
Abbreviation at_most := (at_most Pep440.parse Pep440.gt).
Abbreviation within_maximum := (within_maximum Pep440.parse Pep440.gt).
Abbreviation comparable_with_maximum := (comparable_with_maximum Pep440.parse).

End Release.

(** Closes a goal on concrete versions or a concrete package manager. *)
Ltac by_computation :=
  repeat (hnf; match goal with
               | |- ∃ _, _ => eexists
               | |- _ ∧ _ => split
               end);
  first [reflexivity | exact I].

(** Splits a hypothesis of membership in the table into its four entries. *)
Ltac table_cases H :=
  unfold critical_packages in H;
  repeat (apply elem_of_cons in H as [H|H]; [injection H as -> -> ->|]);
  [..|apply elem_of_nil in H as []].

(** Shows that a package of a concrete package manager is installed at the
    given version. *)
Ltac show_installed s :=
  exists s; split; [eexists; split; [reflexivity|split; vm_compute; reflexivity]|].

Lemma version_check_true_within_bounds_witness :
  outcome (Release.check_critical_versions
             (Fixture.pip Fixture.no_conflicts Fixture.all_within_bounds
                Fixture.command_not_found Fixture.healthy_disk)) = Ok true.
Proof.
  apply version_check_true_within_bounds.
  intros p mn mx Hin. table_cases Hin.
  - show_installed "1.12.0". by_computation.
  - show_installed "1.22.0". by_computation.
  - show_installed "4.6.0". by_computation.
  - show_installed "9.0.0". by_computation.
Defined.

(** Shows that an entry is in the table. *)
Ltac in_table :=
  unfold critical_packages;
  repeat first [apply list_elem_of_here | apply list_elem_of_further].

Lemma exceeding_maximum_only_warns_witness :
  let env := Fixture.pip Fixture.no_conflicts Fixture.numpy_above_maximum
               Fixture.command_not_found Fixture.healthy_disk in
  Print "numpy: 1.25.0 exceeds maximum 1.24.0" ∈ events (Release.check_critical_versions env)
  ∧ outcome (Release.check_critical_versions env) = Ok true.
Proof.
  intros env.
  destruct (exceeding_maximum_only_warns Pep440.parse Pep440.lt Pep440.gt env
              "numpy" "1.21.0" "1.24.0" "1.25.0") as (_ & Hwarn & Htrue).
  - in_table.
  - by_computation.
  - by_computation.
  - by_computation.
  - split; [exact Hwarn|]. apply Htrue.
    intros q mnq mxq Hq Hne. right. table_cases Hq.
    + show_installed "1.12.0". by_computation.
    + contradiction Hne; reflexivity.
    + show_installed "4.6.0". by_computation.
    + show_installed "9.0.0". by_computation.
Defined.

Lemma below_minimum_fails_check_witness :
  outcome (Release.check_critical_versions
             (Fixture.pip Fixture.no_conflicts Fixture.numpy_below_minimum
                Fixture.command_not_found Fixture.healthy_disk)) = Ok false.
Proof.
  apply (below_minimum_fails_check _ _ _ _ "numpy" "1.21.0" (Some "1.24.0") "1.20.0").
  - in_table.
  - by_computation.
  - by_computation.
Defined.


Lemma no_version_line_passes_witness :
  let env := Fixture.pip Fixture.no_conflicts Fixture.pillow_without_version
               Fixture.command_not_found Fixture.healthy_disk in
  Release.check_package env "pillow" "8.0.0" None false = ([Call (pip_show "pillow")], Ok false)
  ∧ Release.check_package env "pillow" "8.0.0" None true = ([Call (pip_show "pillow")], Ok true)
  ∧ outcome (Release.check_critical_versions env) = Ok true.
Proof.
  intros env.
  destruct (no_version_line_passes Pep440.parse Pep440.lt Pep440.gt env
              "pillow" "8.0.0" None) as (Hstep & Hout & _).
  - in_table.
  - eexists. split; [reflexivity|]. split; vm_compute; reflexivity.
  - split; [apply Hstep|]. split; [apply Hstep|].
    rewrite Hout. vm_compute. reflexivity.
Defined.

(** C9. In a run where the conflict check finds no conflicts, torch 1.12.0,
    numpy 1.22.0 and pillow 9.0.0 are installed and opencv-python is not,
    the version check returns [False], for opencv-python and for nothing
    else, and the process exits with status 1. *)
Theorem scenario_opencv_missing {F} (loads : string → result (pyobj F)) dumps (env : Env) :
  (∃ r, run env ["pip"; "check"] = Ok r ∧ returncode r = 0%Z) →
  installed env "torch" "1.12.0" →
  installed env "numpy" "1.22.0" →
  not_installed env "opencv-python" →
  installed env "pillow" "9.0.0" →
  outcome (check_dependency_conflicts env) = Ok true
  ∧ outcome (Release.check_critical_versions env) = Ok false
  ∧ console (events (Release.check_critical_versions env))
    = [ Py.nl +:+ "Checking critical package versions...";
        "torch: 1.12.0 (valid)";
        "numpy: 1.22.0 (valid)";
        "opencv-python: NOT INSTALLED";
        "pillow: 9.0.0 (valid)" ]
  ∧ exit_status (Release.main loads dumps env) = 1%Z.
Proof.
  intros Hcheck Htorch Hnumpy Hopencv Hpillow.
  assert (Hc : outcome (check_dependency_conflicts env) = Ok true).
  { rewrite check_dependency_conflicts_outcome.
    destruct Hcheck as (r & -> & ->). reflexivity. }
  assert (Hv : Release.check_critical_versions env
               = ([ Print (Py.nl +:+ "Checking critical package versions...");
                    Call (pip_show "torch"); Print "torch: 1.12.0 (valid)";
                    Call (pip_show "numpy"); Print "numpy: 1.22.0 (valid)";
                    Call (pip_show "opencv-python"); Print "opencv-python: NOT INSTALLED";
                    Call (pip_show "pillow"); Print "pillow: 9.0.0 (valid)" ],
                  Ok false)).
  { unfold check_critical_versions, critical_packages. cbn [check_packages].
    rewrite (check_package_valid _ _ _ _ "torch" _ _ _ "1.12.0")
      by (first [assumption | by_computation]).
    rewrite bind_ret || cbn [bind].
    rewrite (check_package_valid _ _ _ _ "numpy" _ _ _ "1.22.0")
      by (first [assumption | by_computation]).
    cbn [bind].
    rewrite (check_package_missing _ _ _ _ "opencv-python") by assumption.
    cbn [bind].
    rewrite (check_package_valid _ _ _ _ "pillow" _ _ _ "9.0.0")
      by (first [assumption | by_computation]).
    reflexivity. }
  split; [exact Hc|]. rewrite Hv. split; [reflexivity|]. split; [reflexivity|].
  rewrite (exit_status_main _ _ _ loads dumps env true false Hc); [reflexivity|].
  rewrite Hv. reflexivity.
Qed.

Lemma scenario_opencv_missing_witness :
  let env := Fixture.pip Fixture.no_conflicts Fixture.opencv_missing
               Fixture.command_not_found Fixture.healthy_disk in
  outcome (Release.check_critical_versions env) = Ok false
  ∧ exit_status (Release.main Json.loads Json.dumps env) = 1%Z.
Proof.
  intros env.
  destruct (scenario_opencv_missing Json.loads Json.dumps env)
    as (_ & Hv & _ & Hexit).
  - eexists. split; reflexivity.
  - by_computation.
  - by_computation.
  - eexists. split; [reflexivity|]. vm_compute. discriminate.
  - by_computation.
  - split; [exact Hv|exact Hexit].
Defined.

(** ** The files *)

Lemma files_after_app fs l1 l2 :
  files_after fs (l1 ++ l2) = files_after (files_after fs l1) l2.
Proof. apply foldl_app. Qed.

Lemma files_after_untouched fs l : touches_no_file l → files_after fs l = fs.
Proof.
  intros H. revert fs. induction H as [|e l He Hl IH]; intros fs; [reflexivity|].
  destruct e; try contradiction; apply IH.
Qed.

Lemma touches_no_file_app l1 l2 :
  touches_no_file l1 → touches_no_file l2 → touches_no_file (l1 ++ l2).
Proof. intros H1 H2. apply Forall_app. split; assumption. Qed.

(** Settles that a list of prints and calls leaves the files alone. *)
Ltac no_file := unfold touches_no_file; repeat constructor.

Section Files.

Context {Version : Type}.
Variable parse : string → result Version.
Variable version_lt : Version → Version → bool.
Variable version_gt : Version → Version → bool.
Variable env : Env.

Lemma check_dependency_conflicts_no_file :
  touches_no_file (events (check_dependency_conflicts env)).
Proof.
  rewrite check_dependency_conflicts_unfold.
  destruct (run env _) as [r|msg]; [destruct (Z.eqb _ _)|]; cbn [events fst]; no_file.
Qed.

Lemma check_version_line_no_file p mn mx line ok :
  touches_no_file (events (check_version_line parse version_lt version_gt p mn mx line ok)).
Proof.
  unfold check_version_line.
  rewrite events_bind, index_events.
  destruct (outcome (index _ 1)) as [part|msg]; [|no_file].
  rewrite events_bind, below_minimum_events.
  destruct (outcome (below_minimum _ _ _ _)) as [[|]|msg]; cbn; try no_file.
  rewrite events_bind, above_maximum_events.
  destruct (outcome (above_maximum _ _ _ _)) as [[|]|msg]; cbn; no_file.
Qed.

Lemma check_package_no_file p mn mx ok :
  touches_no_file (events (check_package parse version_lt version_gt env p mn mx ok)).
Proof.
  rewrite check_package_unfold.
  destruct (run env (pip_show p)) as [r|msg]; [|cbn; no_file].
  destruct (Z.eqb (returncode r) 0); [|cbn; no_file].
  destruct (version_line (stdout r)) as [line|]; [|cbn; no_file].
  cbn zeta.
  pose proof (check_version_line_no_file p mn mx line ok) as H.
  destruct (outcome (check_version_line _ _ _ p mn mx line ok)) as [b|msg];
    cbn [events fst]; (apply Forall_cons; split; [exact I|]); [exact H|].
  apply touches_no_file_app; [exact H|no_file].
Qed.

Lemma check_critical_versions_no_file :
  touches_no_file (events (check_critical_versions parse version_lt version_gt env)).
Proof.
  rewrite check_critical_versions_verdict. cbn [events fst].
  apply Forall_cons; split; [exact I|].
  induction critical_packages as [|[p [mn mx]] table IH]; [constructor|].
  cbn [flat_map]. apply touches_no_file_app; [apply check_package_no_file|exact IH].
Qed.

End Files.

(** ** The report *)

Section Report.

Context {Version : Type}.
Variable parse : string → result Version.
Variable version_lt : Version → Version → bool.
Variable version_gt : Version → Version → bool.
Context {F : Type}.
Variable loads : string → result (pyobj F).
Variable dumps : nat → pyobj F → string.

(** The round trip of [json]: a value that [json.loads] returned is dumped
    to a text that [json.loads] maps back to it. *)
Hypothesis loads_dumps : ∀ s o n, loads s = Ok o → loads (dumps n o) = Ok o.

Variable env : Env.

(** The report step when the listing is a JSON array and the disk takes
    the file. *)
Lemma generate_dependency_report_written r items :
  run env ["pip"; "list"; "--format=json"] = Ok r →
  loads (stdout r) = Ok (PyList items) →
  disk env "dependency_report.json" (dumps 2 (PyList items)) = Written →
  generate_dependency_report loads dumps env =
    ([ Print (Py.nl +:+ "Generating dependency report...");
       Call ["pip"; "list"; "--format=json"];
       Print ("Total packages installed: " +:+ pretty (length items));
       OpenW "dependency_report.json";
       Write "dependency_report.json" (dumps 2 (PyList items));
       Print "Dependency report saved to dependency_report.json" ],
     Ok tt).
Proof.
  intros Hrun Hloads Hdisk.
  unfold generate_dependency_report, subprocess_run, write_file.
  rewrite Hrun. cbn [emit lift bind app print]. rewrite Hloads.
  cbn [lift bind len ret app]. rewrite Hdisk. reflexivity.
Qed.

(** The events of a whole run, step by step. *)
Lemma events_main :
  ∃ banner,
    events (main parse version_lt version_gt loads dumps env) =
      events (check_dependency_conflicts env)
      ++ events (check_critical_versions parse version_lt version_gt env)
      ++ events (generate_dependency_report loads dumps env)
      ++ [Print banner].
Proof.
  unfold main.
  destruct (check_dependency_conflicts_returns env) as [c Hc].
  destruct (check_critical_versions_returns parse version_lt version_gt env) as [v Hv].
  rewrite events_bind, Hc, events_bind, Hv, events_bind.
  rewrite (generate_dependency_report_returns loads dumps env).
  destruct (c && v); eexists; reflexivity.
Qed.

(** C8, as amended.  When the listing command completes, its output is a
    JSON array and the disk takes the file, a run leaves in
    [dependency_report.json] the text of that array and nothing of what the
    file held before, and that text is parsed back into a list as long as
    the array, which is the number of packages the run prints; no other
    file is touched.  Nothing is assumed of the conflict check and of the
    version check. *)
Theorem report_written_when_listing_parses fs r items :
  run env ["pip"; "list"; "--format=json"] = Ok r →
  loads (stdout r) = Ok (PyList items) →
  disk env "dependency_report.json" (dumps 2 (PyList items)) = Written →
  let run := main parse version_lt version_gt loads dumps env in
  let fs' := files_after fs (events run) in
  (∃ content,
      fs' !! "dependency_report.json" = Some content
      ∧ content = dumps 2 (PyList items)
      ∧ ∃ items', loads content = Ok (PyList items') ∧ length items' = length items)
  ∧ Print ("Total packages installed: " +:+ pretty (length items)) ∈ events run
  ∧ ∀ path, path ≠ "dependency_report.json" → fs' !! path = fs !! path.
Proof.
  intros Hrun Hloads Hdisk run0 fs'. subst run0 fs'.
  destruct events_main as [banner ->].
  rewrite (generate_dependency_report_written r items Hrun Hloads Hdisk).
  rewrite !files_after_app.
  rewrite (files_after_untouched fs) by apply check_dependency_conflicts_no_file.
  rewrite (files_after_untouched fs) by apply check_critical_versions_no_file.
  cbn [events fst files_after foldl apply_event].
  split; [|split].
  - exists (dumps 2 (PyList items)).
    rewrite lookup_insert_eq, lookup_insert_eq. cbn [default].
    split; [reflexivity|]. split; [reflexivity|].
    exists items. split; [|reflexivity].
    eapply loads_dumps, Hloads.
  - apply elem_of_app. right. apply elem_of_app. right. apply elem_of_app. left.
    apply elem_of_cons. right. apply elem_of_cons. right. apply elem_of_cons. left.
    reflexivity.
  - intros path Hne. rewrite !lookup_insert_ne by congruence. reflexivity.
Qed.

End Report.

(** C8, as the claim is worded, fails.  On a machine without [pip] every
    command fails to start: both checks return [False], the report step
    prints its error, and the run writes no file at all, so that a report
    of an earlier run stays as it was. *)
Lemma report_not_written_without_pip :
  let run := Release.main Json.loads Json.dumps Fixture.no_pip in
  exit_status run = 1%Z
  ∧ console (events (generate_dependency_report Json.loads Json.dumps Fixture.no_pip))
    = [ Py.nl +:+ "Generating dependency report...";
        "Error generating report: [Errno 2] No such file or directory: 'pip'" ]
  ∧ files_after ∅ (events run) !! "dependency_report.json" = None
  ∧ files_after {[ "dependency_report.json" := "[]" ]} (events run)
    = {[ "dependency_report.json" := "[]" ]}.
Proof.
  cbn zeta. split; [vm_compute; reflexivity|]. split; [vm_compute; reflexivity|].
  assert (H : touches_no_file (events (Release.main Json.loads Json.dumps Fixture.no_pip))).
  { vm_compute. repeat constructor. }
  split; rewrite (files_after_untouched _ _ H); reflexivity.
Qed.

Lemma report_written_when_listing_parses_witness :
  let env := Fixture.pip Fixture.no_conflicts Fixture.opencv_missing
               Fixture.listing Fixture.healthy_disk in
  let run := Release.main Json.loads Json.dumps env in
  let fs' := files_after {[ "dependency_report.json" := "stale" ]} (events run) in
  exit_status run = 1%Z
  ∧ ∃ content,
      fs' !! "dependency_report.json" = Some content
      ∧ ∃ items', Json.loads content = Ok (PyList items') ∧ length items' = 2.
Proof.
  intros env run0 fs'. split; [vm_compute; reflexivity|].
  assert (Hloads : ∃ items, Json.loads Fixture.listing_text = Ok (PyList items)
                            ∧ length items = 2).
  { eexists. split; [vm_compute; reflexivity|reflexivity]. }
  destruct Hloads as (items & Hloads & Hlen).
  destruct (report_written_when_listing_parses Pep440.parse Pep440.lt Pep440.gt
              Json.loads Json.dumps
              (λ s o n, JsonFacts.loads_dumps s o n) env
              {[ "dependency_report.json" := "stale" ]}
              {| returncode := 0; stdout := Fixture.listing_text |} items)
    as ((content & Hfile & _ & items' & Hback & Hlen') & _ & _).
  - reflexivity.
  - exact Hloads.
  - reflexivity.
  - exists content. split; [exact Hfile|]. exists items'. split; [exact Hback|].
    rewrite Hlen'. exact Hlen.
Defined.

(** * Further properties of the script *)

(** Shows that an element is in a list that is written out. *)
Ltac in_list := repeat first [apply list_elem_of_here | apply list_elem_of_further].

(** Shows that a text is none of the texts of a list that is written out,
    when it starts unlike each of them. *)
Ltac not_in_list :=
  let Hin := fresh "Hin" in
  intros Hin;
  repeat (apply elem_of_cons in Hin as [Hin|Hin]; [discriminate Hin|]);
  apply elem_of_nil in Hin as [].

(** ** The report step, case by case *)

Section ReportCases.

Context {F : Type}.
Variable loads : string → result (pyobj F).
Variable dumps : nat → pyobj F → string.
Variable env : Env.

Local Abbreviation report := (generate_dependency_report loads dumps env).
Local Abbreviation header := (Print (Py.nl +:+ "Generating dependency report...")).
Local Abbreviation failure msg := (Print ("Error generating report: " +:+ msg)).
Local Abbreviation total n := (Print ("Total packages installed: " +:+ pretty n)).
Local Abbreviation saved := (Print "Dependency report saved to dependency_report.json").

Lemma len_events (o : pyobj F) : events (len o) = [].
Proof. destruct o; reflexivity. Qed.

(** Everything the report step can do. *)
Lemma generate_dependency_report_unfold :
  report =
    match run env pip_list with
    | Raise msg => ([header; Call pip_list; failure msg], Ok tt)
    | Ok r =>
        match loads (stdout r) with
        | Raise msg => ([header; Call pip_list; failure msg], Ok tt)
        | Ok o =>
            match outcome (len o) with
            | Raise msg => ([header; Call pip_list; failure msg], Ok tt)
            | Ok n =>
                match disk env report_path (dumps 2 o) with
                | Written =>
                    ([header; Call pip_list; total n; OpenW report_path;
                      Write report_path (dumps 2 o); saved], Ok tt)
                | OpenFails msg =>
                    ([header; Call pip_list; total n; failure msg], Ok tt)
                | WriteFails k msg =>
                    ([header; Call pip_list; total n; OpenW report_path;
                      Write report_path (String.substring 0 k (dumps 2 o));
                      failure msg], Ok tt)
                end
            end
        end
    end.
Proof.
  unfold generate_dependency_report, subprocess_run, write_file, pip_list, report_path.
  destruct (run env _) as [r|msg]; [|reflexivity].
  cbn [emit lift bind app print].
  destruct (loads (stdout r)) as [o|msg]; [|reflexivity].
  cbn [lift bind app].
  rewrite (M_eta (len o)), len_events.
  destruct (outcome (len o)) as [n|msg]; [|reflexivity].
  cbn [bind app].
  destruct (disk env _ _) as [|msg|k msg]; reflexivity.
Qed.

End ReportCases.

(** ** A whole run *)

Section Run.

Context {Version : Type}.
Variable parse : string → result Version.
Variable version_lt : Version → Version → bool.
Variable version_gt : Version → Version → bool.
Context {F : Type}.
Variable loads : string → result (pyobj F).
Variable dumps : nat → pyobj F → string.
Variable env : Env.

Local Abbreviation conflicts := (check_dependency_conflicts env).
Local Abbreviation versions := (check_critical_versions parse version_lt version_gt env).
Local Abbreviation report := (generate_dependency_report loads dumps env).
Local Abbreviation script := (main parse version_lt version_gt loads dumps env).

Lemma events_main_banner :
  events script
  = events conflicts ++ events versions ++ events report
    ++ [Print (banner_of (exit_status script))].
Proof.
  destruct (check_dependency_conflicts_returns env) as [c Hc].
  destruct (check_critical_versions_returns parse version_lt version_gt env) as [v Hv].
  rewrite (exit_status_main parse version_lt version_gt loads dumps env c v Hc Hv).
  unfold main.
  rewrite events_bind, Hc, events_bind, Hv, events_bind.
  rewrite (generate_dependency_report_returns loads dumps env).
  destruct (c && v); reflexivity.
Qed.

Lemma commands_conflicts : commands (events conflicts) = [["pip"; "check"]].
Proof.
  rewrite check_dependency_conflicts_unfold.
  destruct (run env _) as [r|msg]; [destruct (Z.eqb _ _)|]; reflexivity.
Qed.

Lemma commands_versions :
  commands (events versions) = map (λ e, pip_show e.1) critical_packages.
Proof.
  unfold check_critical_versions.
  rewrite events_bind, commands_app. cbn [outcome snd print emit].
  rewrite check_packages_commands. reflexivity.
Qed.

Lemma commands_report : commands (events report) = [pip_list].
Proof.
  rewrite generate_dependency_report_unfold.
  destruct (run env pip_list) as [r|msg]; [|reflexivity].
  destruct (loads (stdout r)) as [o|msg]; [|reflexivity].
  destruct (outcome (len o)) as [n|msg]; [|reflexivity].
  destruct (disk env _ _); reflexivity.
Qed.

(** X1. Every run starts the same six commands in the same order,
    whatever they answer: [pip check], [pip show] for torch, numpy,
    opencv-python and pillow, then [pip list --format=json].  A failure of
    one step never keeps a later step from running. *)
Theorem run_commands :
  commands (events script)
  = [ ["pip"; "check"];
      ["pip"; "show"; "torch"]; ["pip"; "show"; "numpy"];
      ["pip"; "show"; "opencv-python"]; ["pip"; "show"; "pillow"];
      ["pip"; "list"; "--format=json"] ].
Proof.
  rewrite events_main_banner, !commands_app.
  rewrite commands_conflicts, commands_versions, commands_report. reflexivity.
Qed.

(** X2. The last line a run prints tells its exit status: the line of
    success when the status is 0, the line of failure otherwise. *)
Theorem run_last_line :
  last (console (events script)) = Some (banner_of (exit_status script))
  ∧ (exit_status script = 0%Z →
     last (console (events script)) = Some (Py.nl +:+ "All dependency checks passed"))
  ∧ (exit_status script ≠ 0%Z →
     last (console (events script)) = Some (Py.nl +:+ "Dependency validation failed")).
Proof.
  assert (H : last (console (events script)) = Some (banner_of (exit_status script))).
  { rewrite events_main_banner, !app_assoc, console_app. apply last_snoc. }
  split; [exact H|]. rewrite H. unfold banner_of. split.
  - intros ->. reflexivity.
  - intros Hne. destruct (Z.eqb_spec (exit_status script) 0); [contradiction|reflexivity].
Qed.

(** The files after a run are the files after its report step. *)
Lemma files_after_main fs :
  files_after fs (events script) = files_after fs (events report).
Proof.
  rewrite events_main_banner, !files_after_app.
  rewrite (files_after_untouched fs) by apply check_dependency_conflicts_no_file.
  rewrite (files_after_untouched fs) by apply check_critical_versions_no_file.
  reflexivity.
Qed.

(** X3. A run touches no file but [dependency_report.json]. *)
Theorem run_touches_only_report fs path :
  path ≠ report_path →
  files_after fs (events script) !! path = fs !! path.
Proof.
  intros Hne. rewrite files_after_main, generate_dependency_report_unfold.
  destruct (run env pip_list) as [r|msg]; [|reflexivity].
  destruct (loads (stdout r)) as [o|msg]; [|reflexivity].
  destruct (outcome (len o)) as [n|msg]; [|reflexivity].
  destruct (disk env _ _); cbn [events fst files_after foldl apply_event];
    rewrite ?lookup_insert_ne by congruence; reflexivity.
Qed.

(** X4. When the report step fails before it opens the file (the listing
    command raises, its output is not JSON, the value has no length, or
    [open] raises), the run prints the error and leaves every file as it
    was: no report is created, and an earlier report is kept. *)
Theorem failed_report_leaves_files fs msg :
  fails_before_write loads dumps env msg →
  files_after fs (events script) = fs
  ∧ "Error generating report: " +:+ msg ∈ console (events report)
  ∧ "Dependency report saved to dependency_report.json" ∉ console (events report).
Proof.
  unfold fails_before_write. intros H.
  rewrite files_after_main, generate_dependency_report_unfold.
  destruct (run env pip_list) as [r|m].
  2:{ subst m. cbn. split; [reflexivity|]. split; [in_list|not_in_list]. }
  destruct (loads (stdout r)) as [o|m].
  2:{ subst m. cbn. split; [reflexivity|]. split; [in_list|not_in_list]. }
  destruct (outcome (len o)) as [n|m].
  2:{ subst m. cbn. split; [reflexivity|]. split; [in_list|not_in_list]. }
  rewrite H. cbn. split; [reflexivity|]. split; [in_list|not_in_list].
Qed.

(** X5. Whenever the listing command completes with a value that has a
    length, be it a list, a dictionary or a string, and the disk takes the
    file, the run prints that length as the number of packages and leaves
    in [dependency_report.json] the text of the value and nothing of what
    the file held before; the exit status of the listing command plays no
    part. *)
Theorem sized_listing_is_written fs o n data :
  listing_value loads dumps env o n data →
  disk env report_path data = Written →
  files_after fs (events script) !! report_path = Some data
  ∧ console (events report)
    = [ Py.nl +:+ "Generating dependency report...";
        "Total packages installed: " +:+ pretty n;
        "Dependency report saved to dependency_report.json" ].
Proof.
  intros (r & Hrun & Hloads & Hlen & ->) Hdisk.
  rewrite files_after_main, generate_dependency_report_unfold.
  rewrite Hrun, Hloads, Hlen, Hdisk.
  cbn [events fst files_after foldl apply_event].
  rewrite lookup_insert_eq, lookup_insert_eq. split; reflexivity.
Qed.

(** X6. The line that says the report is saved is printed only when the
    file holds the whole text of the value the listing gave: if a run
    prints it, then the listing command completed, its output was parsed,
    and the file is there with the text of the value. *)
Theorem saved_line_means_written fs :
  "Dependency report saved to dependency_report.json" ∈ console (events report) →
  ∃ o n data,
    listing_value loads dumps env o n data
    ∧ files_after fs (events script) !! report_path = Some data.
Proof.
  rewrite files_after_main, generate_dependency_report_unfold.
  destruct (run env pip_list) as [r|msg] eqn:Hrun;
    [|intros Hin; exfalso; revert Hin; cbn; not_in_list].
  destruct (loads (stdout r)) as [o|msg] eqn:Hloads;
    [|intros Hin; exfalso; revert Hin; cbn; not_in_list].
  destruct (outcome (len o)) as [n|msg] eqn:Hlen;
    [|intros Hin; exfalso; revert Hin; cbn; not_in_list].
  destruct (disk env _ _) as [|msg|k msg];
    [|intros Hin; exfalso; revert Hin; cbn; not_in_list..].
  intros _. exists o, n, (dumps 2 o). split.
  - exists r. repeat split; assumption.
  - cbn [events fst files_after foldl apply_event].
    rewrite lookup_insert_eq, lookup_insert_eq. reflexivity.
Qed.

(** X7. When the file opens and the writing fails after [k] characters,
    what the file held before is lost: the file holds the first [k]
    characters of the new text, the run prints the error and not the line
    that says the report is saved. *)
Theorem interrupted_write_truncates fs o n data k msg :
  listing_value loads dumps env o n data →
  disk env report_path data = WriteFails k msg →
  files_after fs (events script) !! report_path = Some (String.substring 0 k data)
  ∧ "Error generating report: " +:+ msg ∈ console (events report)
  ∧ "Dependency report saved to dependency_report.json" ∉ console (events report).
Proof.
  intros (r & Hrun & Hloads & Hlen & ->) Hdisk.
  rewrite files_after_main, generate_dependency_report_unfold.
  rewrite Hrun, Hloads, Hlen, Hdisk.
  cbn [events fst files_after foldl apply_event].
  rewrite lookup_insert_eq, lookup_insert_eq.
  split; [reflexivity|]. cbn. split; [in_list|not_in_list].
Qed.

End Run.

(** X8. The report step never looks at the exit status of the listing
    command: two package managers whose listing commands print the same
    text, with whatever exit statuses, and whose disks behave alike, give
    the same report step. *)
Theorem report_ignores_returncode {F} (loads : string → result (pyobj F)) dumps
    (env env' : Env) r r' :
  run env pip_list = Ok r → run env' pip_list = Ok r' →
  stdout r' = stdout r →
  (∀ data, disk env' report_path data = disk env report_path data) →
  generate_dependency_report loads dumps env'
  = generate_dependency_report loads dumps env.
Proof.
  intros Hrun Hrun' Hout Hdisk.
  rewrite !generate_dependency_report_unfold, Hrun, Hrun', Hout.
  destruct (loads (stdout r)) as [o|msg]; [|reflexivity].
  destruct (outcome (len o)) as [n|msg]; [|reflexivity].
  rewrite Hdisk. reflexivity.
Qed.

(** ** The version check, from what the package manager answers *)

Section VersionFacts.

Context {Version : Type}.
Variable parse : string → result Version.
Variable version_lt : Version → Version → bool.
Variable version_gt : Version → Version → bool.
Variable env : Env.

Local Abbreviation check_package := (check_package parse version_lt version_gt env).
Local Abbreviation versions := (check_critical_versions parse version_lt version_gt env).

(** The line the inner loop stops at starts with [Version:]. *)
Lemma version_line_starts out line :
  version_line out = Some line → Py.startswith "Version:" line = true.
Proof. unfold version_line. intros H. apply List.find_some in H as [_ H]. exact H. Qed.

(** An iteration that leaves [all_ok] at [True] met an acceptable answer. *)
Lemma check_package_true_inv p mn mx :
  Py.truthy mn = true →
  (∀ bound, mx = Some bound → Py.truthy bound = true) →
  outcome (check_package p mn mx true) = Ok true →
  no_version_line env p
  ∨ ∃ s, installed env p s ∧ at_least parse version_lt s mn
         ∧ comparable_with_maximum parse s mx.
Proof.
  intros Hmn Hmx H. rewrite check_package_unfold in H.
  destruct (run env (pip_show p)) as [r|msg] eqn:Hrun; [|discriminate H].
  destruct (Z.eqb_spec (returncode r) 0) as [Hrc|_]; [|discriminate H].
  destruct (version_line (stdout r)) as [line|] eqn:Hline.
  2:{ left. exists r. repeat split; assumption. }
  right. cbn zeta in H.
  destruct (split_colon_second line (version_line_starts _ _ Hline)) as [part Hpart].
  rewrite (check_version_line_unfold _ _ _ _ _ _ _ part _ Hpart Hmn) in H.
  cbn zeta in H.
  assert (Hinst : installed env p (Py.strip part)).
  { exists r. split; [exact Hrun|]. split; [exact Hrc|].
    unfold reported_version. rewrite Hline, Hpart. reflexivity. }
  destruct (parse (Py.strip part)) as [v|msg] eqn:Hv; [|discriminate H].
  destruct (parse mn) as [b|msg] eqn:Hb; [|discriminate H].
  destruct (version_lt v b) eqn:Hlt; [discriminate H|].
  exists (Py.strip part). split; [exact Hinst|]. split; [exists v, b; auto|].
  destruct mx as [bound|]; [|exact I].
  unfold above_maximum in H. rewrite (Hmx bound eq_refl), Hv, bind_lift_ok in H.
  destruct (parse bound) as [b'|msg] eqn:Hb'; [|discriminate H].
  exists v, b'. split; [exact Hv|exact Hb'].
Qed.

(** Acceptable answers from every package make the check return [True]. *)
Lemma all_acceptable_true :
  all_acceptable parse version_lt env → outcome versions = Ok true.
Proof.
  intros Hall. apply verdict_all_true. intros p mn mx Hin.
  apply verdict_of_outcome.
  destruct (critical_packages_truthy p mn mx Hin) as [Hmn _].
  destruct (Hall p mn mx Hin) as [Hnone|(s & Hi & Hmin & Hcmp)].
  - rewrite check_package_no_version_line by assumption. reflexivity.
  - apply (check_package_at_least _ _ _ _ p mn mx true s); assumption.
Qed.

Lemma true_all_acceptable :
  outcome versions = Ok true → all_acceptable parse version_lt env.
Proof.
  rewrite check_critical_versions_verdict. cbn [outcome snd].
  intros H.
  apply (f_equal (λ r, match r with Ok b => b | Raise _ => false end)) in H.
  cbv beta iota in H. rewrite forallb_forall in H.
  intros p mn mx Hin.
  destruct (critical_packages_truthy p mn mx Hin) as [Hmn Hmx].
  apply (check_package_true_inv p mn mx Hmn Hmx).
  specialize (H _ (proj1 (list_elem_of_In _ _) Hin)). cbn in H.
  rewrite check_package_verdict, H. reflexivity.
Qed.

(** X9. The version check returns [True] exactly when every package of the
    table answers acceptably: its query succeeds and either prints no
    version line, or reports a version that parses, is not below the
    minimum, and can be compared with the maximum when there is one.  In
    every other case it returns [False]. *)
Theorem version_check_true_iff :
  (outcome versions = Ok true ↔ all_acceptable parse version_lt env)
  ∧ (outcome versions = Ok true ∨ outcome versions = Ok false).
Proof.
  split.
  - split; [apply true_all_acceptable|apply all_acceptable_true].
  - destruct (check_critical_versions_returns parse version_lt version_gt env) as [[|] ->];
      [left|right]; reflexivity.
Qed.

(** X10. When the version a package reports does not parse, the exception
    of [version.parse] is caught in the iteration of that package: the
    check prints the error for the package and returns [False]. *)
Theorem unparsable_version_fails_check p mn mx s msg :
  (p, (mn, mx)) ∈ critical_packages →
  installed env p s → parse s = Raise msg →
  "Error checking " +:+ p +:+ ": " +:+ msg ∈ console (events versions)
  ∧ outcome versions = Ok false.
Proof.
  intros Hin Hi Hs.
  destruct (critical_packages_truthy p mn mx Hin) as [Hmn _].
  pose proof (check_package_unparsable parse version_lt version_gt env
                p mn mx true s msg Hi Hmn Hs) as Hstep.
  split.
  - assert (He : Print ("Error checking " +:+ p +:+ ": " +:+ msg) ∈ events versions).
    { apply (check_package_event_in_check parse version_lt version_gt env p mn mx);
        [exact Hin|].
      rewrite Hstep. in_list. }
    unfold console. apply list_elem_of_omap. eexists. split; [exact He|reflexivity].
  - apply (verdict_one_false parse version_lt version_gt env p mn mx Hin),
      verdict_of_failure.
    rewrite Hstep. reflexivity.
Qed.

End VersionFacts.

(** ** Reading the version off the output of [pip show] *)

Lemma split_line l rest :
  has_char (ascii_of_nat 10) l = false →
  Py.split (ascii_of_nat 10) (l +:+ Py.nl +:+ rest)
  = l :: Py.split (ascii_of_nat 10) rest.
Proof.
  induction l as [|c l IH]; intros H; [reflexivity|].
  cbn [has_char] in H.
  destruct (Ascii.eqb c (ascii_of_nat 10)) eqn:Hc; [discriminate H|].
  rewrite JsonFacts.append_cons. cbn [Py.split]. rewrite Hc, (IH H). reflexivity.
Qed.

Lemma split_free c s : has_char c s = false → Py.split c s = [s].
Proof.
  induction s as [|b s IH]; intros H; [reflexivity|].
  cbn [has_char] in H. cbn [Py.split].
  destruct (Ascii.eqb b c); [discriminate H|].
  rewrite (IH H). reflexivity.
Qed.

Lemma has_newline_version v :
  has_char (ascii_of_nat 10) v = false →
  has_char (ascii_of_nat 10) ("Version:" +:+ v) = false.
Proof. intros Hv. exact Hv. Qed.

(** The version reported by an output with lines that are passed over, a
    version line, and anything after it. *)
Lemma reported_version_of_output pre v post :
  Forall passed_over pre →
  has_char (ascii_of_nat 10) v = false → has_char ":" v = false →
  reported_version (unlines pre +:+ "Version:" +:+ v +:+ Py.nl +:+ post)
  = Some (Py.strip v).
Proof.
  intros Hpre Hnl Hcolon.
  assert (Hline : version_line (unlines pre +:+ "Version:" +:+ v +:+ Py.nl +:+ post)
                  = Some ("Version:" +:+ v)).
  { unfold version_line. induction Hpre as [|l pre [Hl Hs] Hpre IH].
    - change (unlines [] +:+ ?s) with s.
      rewrite <- JsonFacts.append_assoc, split_line
        by (apply has_newline_version, Hnl).
      reflexivity.
    - cbn [unlines]. rewrite !JsonFacts.append_assoc, split_line by exact Hl.
      cbn [List.find]. rewrite Hs. exact IH. }
  unfold reported_version. rewrite Hline.
  change (Py.split ":" ("Version:" +:+ v)) with ("Version" :: Py.split ":" v).
  rewrite split_free by exact Hcolon. reflexivity.
Qed.

(** ** What the version check reads, and when a run succeeds *)

Lemma check_packages_env_table {Version} (parse : string → result Version) lt gt
    (env env' : Env) table ok :
  (∀ p mn mx, (p, (mn, mx)) ∈ table → run env' (pip_show p) = run env (pip_show p)) →
  check_packages parse lt gt env' table ok = check_packages parse lt gt env table ok.
Proof.
  revert ok; induction table as [|[p [mn mx]] table IH]; intros ok H; [reflexivity|].
  cbn [check_packages].
  rewrite (check_package_env parse lt gt env env') by (apply (H p mn mx); in_list).
  destruct (check_package parse lt gt env p mn mx ok) as [l [b|msg]]; [|reflexivity].
  cbn [bind]. rewrite IH; [reflexivity|].
  intros q mnq mxq Hq. apply (H q mnq mxq). apply elem_of_cons. right. exact Hq.
Qed.

(** X12. The version check reads nothing but the answers of [pip show] for
    the four packages of the table: two package managers that answer these
    four queries alike give the same lines and the same result, whatever
    else they answer and whatever the disk does. *)
Theorem version_check_reads_only_show {Version} (parse : string → result Version) lt gt
    (env env' : Env) :
  (∀ p mn mx, (p, (mn, mx)) ∈ critical_packages →
     run env' (pip_show p) = run env (pip_show p)) →
  check_critical_versions parse lt gt env' = check_critical_versions parse lt gt env.
Proof.
  intros H. unfold check_critical_versions.
  rewrite (check_packages_env_table parse lt gt env env') by exact H. reflexivity.
Qed.

(** X13. A run exits with status 0 exactly when [pip check] exits with
    status 0 and every package of the table answers acceptably (its query
    succeeds and prints no version line, or reports a version that parses,
    is not below the minimum and can be compared with the maximum). *)
Theorem run_succeeds_iff {Version} (parse : string → result Version) lt gt
    {F} (loads : string → result (pyobj F)) dumps (env : Env) :
  exit_status (main parse lt gt loads dumps env) = 0%Z
  ↔ (∃ r, run env ["pip"; "check"] = Ok r ∧ returncode r = 0%Z)
    ∧ all_acceptable parse lt env.
Proof.
  destruct (check_critical_versions_returns parse lt gt env) as [v Hv].
  pose proof (check_dependency_conflicts_outcome env) as Hc.
  rewrite (exit_status_main parse lt gt loads dumps env _ v Hc Hv).
  split.
  - intros H.
    destruct (run env ["pip"; "check"]) as [r|msg]; [|discriminate H].
    destruct (Z.eqb_spec (returncode r) 0) as [Hrc|_]; [|discriminate H].
    destruct v; [|discriminate H].
    split; [exists r; split; [reflexivity|exact Hrc]|].
    apply (true_all_acceptable parse lt gt env), Hv.
  - intros [(r & Hr & Hrc) Hall].
    rewrite Hr, Hrc.
    pose proof (all_acceptable_true parse lt gt env Hall) as Hv'.
    rewrite Hv in Hv'. injection Hv' as ->. reflexivity.
Qed.

(** ** The further properties at work *)

Lemma run_touches_only_report_witness :
  files_after {[ "notes.txt" := "mine" ]}
    (events (Release.main Json.loads Json.dumps
               (Fixture.pip Fixture.no_conflicts Fixture.all_within_bounds
                  Fixture.listing Fixture.healthy_disk))) !! "notes.txt"
  = Some "mine".
Proof.
  rewrite (run_touches_only_report Pep440.parse Pep440.lt Pep440.gt Json.loads Json.dumps
             _ _ "notes.txt"); [reflexivity|discriminate].
Defined.

Lemma failed_report_leaves_files_witness :
  files_after {[ report_path := "[]" ]}
    (events (Release.main Json.loads Json.dumps Fixture.no_pip))
  = {[ report_path := "[]" ]}.
Proof.
  apply (failed_report_leaves_files Pep440.parse Pep440.lt Pep440.gt Json.loads Json.dumps
           Fixture.no_pip _ "[Errno 2] No such file or directory: 'pip'").
  reflexivity.
Defined.

Lemma sized_listing_is_written_witness :
  let env := Fixture.pip Fixture.no_conflicts Fixture.all_within_bounds
               Fixture.object_listing Fixture.healthy_disk in
  ∃ data,
    files_after {[ report_path := "stale" ]}
      (events (Release.main Json.loads Json.dumps env)) !! report_path = Some data
    ∧ Json.loads data = Ok (PyDict [("numpy", PyStr "1.22.0")]).
Proof.
  intros env. eexists. split.
  - apply (sized_listing_is_written Pep440.parse Pep440.lt Pep440.gt Json.loads Json.dumps
             env _ (PyDict [("numpy", PyStr "1.22.0")]) 1).
    + eexists. split; [reflexivity|]. split; [vm_compute; reflexivity|].
      split; reflexivity.
    + reflexivity.
  - vm_compute. reflexivity.
Defined.

Lemma saved_line_means_written_witness :
  let env := Fixture.pip Fixture.no_conflicts Fixture.all_within_bounds
               Fixture.listing Fixture.healthy_disk in
  ∃ o n data,
    listing_value Json.loads Json.dumps env o n data
    ∧ files_after ∅ (events (Release.main Json.loads Json.dumps env)) !! report_path
      = Some data.
Proof.
  intros env.
  apply (saved_line_means_written Pep440.parse Pep440.lt Pep440.gt Json.loads Json.dumps env).
  vm_compute. in_list.
Defined.

Lemma interrupted_write_truncates_witness :
  let env := Fixture.pip Fixture.no_conflicts Fixture.all_within_bounds
               Fixture.object_listing Fixture.full_disk in
  files_after {[ report_path := "a report of an earlier run" ]}
    (events (Release.main Json.loads Json.dumps env)) !! report_path
  = Some (String.substring 0 5 (Json.dumps 2 (PyDict [("numpy", PyStr "1.22.0")]))).
Proof.
  intros env.
  apply (interrupted_write_truncates Pep440.parse Pep440.lt Pep440.gt Json.loads Json.dumps
           env _ (PyDict [("numpy", PyStr "1.22.0")]) 1 _ 5
           "[Errno 28] No space left on device").
  - eexists. split; [reflexivity|]. split; [vm_compute; reflexivity|].
    split; reflexivity.
  - reflexivity.
Defined.

Lemma report_ignores_returncode_witness :
  generate_dependency_report Json.loads Json.dumps
    (Fixture.pip Fixture.no_conflicts Fixture.all_within_bounds
       Fixture.failing_listing Fixture.healthy_disk)
  = generate_dependency_report Json.loads Json.dumps
      (Fixture.pip Fixture.no_conflicts Fixture.all_within_bounds
         Fixture.listing Fixture.healthy_disk).
Proof.
  eapply report_ignores_returncode; reflexivity.
Defined.

Lemma unparsable_version_fails_check_witness :
  let env := Fixture.pip Fixture.no_conflicts Fixture.torch_unparsable
               Fixture.listing Fixture.healthy_disk in
  "Error checking torch: Invalid version: 'unknown'"
    ∈ console (events (Release.check_critical_versions env))
  ∧ outcome (Release.check_critical_versions env) = Ok false.
Proof.
  intros env.
  apply (unparsable_version_fails_check Pep440.parse Pep440.lt Pep440.gt env
           "torch" "1.10.0" None "unknown" "Invalid version: 'unknown'").
  - in_table.
  - by_computation.
  - reflexivity.
Defined.

Lemma version_check_reads_only_show_witness :
  Release.check_critical_versions
    (Fixture.pip Fixture.command_not_found Fixture.opencv_missing
       Fixture.command_not_found Fixture.full_disk)
  = Release.check_critical_versions
      (Fixture.pip Fixture.no_conflicts Fixture.opencv_missing
         Fixture.listing Fixture.healthy_disk).
Proof.
  apply version_check_reads_only_show.
  intros p mn mx Hin. table_cases Hin; reflexivity.
Defined.

(** ** The model of [packaging.version] *)

Module Pep440Facts.
Import Pep440.

(** *** Decimal texts *)

Lemma number_pretty_go x :
  ∃ k, ∀ acc t, number (pretty_N_go x t) acc = number t (acc * k + x)%N.
Proof.
  induction (N.lt_wf_0 x) as [x _ IH].
  destruct (decide (x = 0)%N) as [->|Hx].
  - exists 1%N. intros acc t. rewrite pretty_N_go_0. f_equal. lia.
  - destruct (IH (x `div` 10)%N) as [k Hk]; [apply N.div_lt; lia|].
    exists (10 * k)%N. intros acc t.
    rewrite pretty_N_go_step by lia. rewrite Hk. cbn [number].
    rewrite JsonFacts.digit_pretty_N_char by (apply N.mod_lt; lia).
    f_equal. pose proof (N.div_mod x 10 ltac:(discriminate)). lia.
Qed.

Lemma number_pretty (x : N) : number (pretty x) 0 = Some x.
Proof.
  unfold pretty, pretty_N.
  destruct (decide (x = 0)%N) as [->|Hx]; [reflexivity|].
  destruct (number_pretty_go x) as [k Hk]. rewrite Hk. reflexivity.
Qed.

Lemma segment_pretty (x : N) : segment (pretty x) = Some x.
Proof.
  destruct (JsonFacts.pretty_N_head x "") as (c & s & d & Heq & _).
  rewrite JsonFacts.append_nil_r in Heq.
  unfold segment. rewrite <- number_pretty. rewrite Heq. reflexivity.
Qed.

(** The characters of a decimal text are digits. *)
Lemma has_char_pretty_go c x t :
  has_char c (pretty_N_go x t) = true →
  (∃ d, Py.digit c = Some d) ∨ has_char c t = true.
Proof.
  revert t. induction (N.lt_wf_0 x) as [x _ IH]. intros t H.
  destruct (decide (x = 0)%N) as [->|Hx].
  - right. exact H.
  - rewrite pretty_N_go_step in H by lia.
    apply IH in H; [|apply N.div_lt; lia].
    destruct H as [H|H]; [left; exact H|].
    cbn [has_char] in H.
    destruct (Ascii.eqb_spec (pretty_N_char (x `mod` 10)) c) as [Heq|_]; [|right; exact H].
    left. exists (x `mod` 10)%N. rewrite <- Heq.
    apply JsonFacts.digit_pretty_N_char, N.mod_lt. lia.
Qed.

Lemma has_char_pretty c (x : N) :
  has_char c (pretty x) = true → ∃ d, Py.digit c = Some d.
Proof.
  unfold pretty, pretty_N.
  destruct (decide (x = 0)%N) as [->|Hx]; intros H.
  - change (has_char c "0") with (if Ascii.eqb "0" c then true else false) in H.
    destruct (Ascii.eqb_spec "0" c) as [Heq|_]; [|discriminate H].
    exists 0%N. rewrite <- Heq. reflexivity.
  - apply has_char_pretty_go in H as [H|H]; [exact H|discriminate H].
Qed.

Lemma digit_plain c d :
  Py.digit c = Some d →
  Py.isspace c = false ∧ Ascii.eqb c "." = false
  ∧ Ascii.eqb c "v" = false ∧ Ascii.eqb c "V" = false.
Proof.
  destruct c as [[] [] [] [] [] [] [] []]; intros H; vm_compute in H;
    try discriminate H; repeat split; reflexivity.
Qed.


(** *** The text of a release *)

Lemma has_char_app c s t : has_char c (s +:+ t) = has_char c s || has_char c t.
Proof.
  induction s as [|b s IH]; [reflexivity|].
  rewrite JsonFacts.append_cons. cbn [has_char].
  destruct (Ascii.eqb b c); [reflexivity|exact IH].
Qed.

Lemma split_field sep l rest :
  has_char sep l = false →
  Py.split sep (l +:+ String sep rest) = l :: Py.split sep rest.
Proof.
  induction l as [|c l IH]; intros H.
  - rewrite JsonFacts.append_nil_l. cbn [Py.split]. rewrite Ascii.eqb_refl. reflexivity.
  - cbn [has_char] in H.
    destruct (Ascii.eqb c sep) eqn:Hc; [discriminate H|].
    rewrite JsonFacts.append_cons. cbn [Py.split]. rewrite Hc, (IH H). reflexivity.
Qed.

Lemma dotted_cons x y a :
  dotted (x :: y :: a) = pretty x +:+ String "." (dotted (y :: a)).
Proof. reflexivity. Qed.

Lemma has_char_dotted c a :
  has_char c (dotted a) = true → (∃ d, Py.digit c = Some d) ∨ c = "."%char.
Proof.
  induction a as [|x [|y a] IH]; intros H.
  - discriminate H.
  - left. apply (has_char_pretty c x), H.
  - rewrite dotted_cons, has_char_app in H.
    apply orb_true_iff in H as [H|H]; [left; apply (has_char_pretty c x), H|].
    cbn [has_char] in H.
    destruct (Ascii.eqb_spec "." c) as [Heq|_]; [right; symmetry; exact Heq|].
    apply IH, H.
Qed.

Lemma dotted_head a :
  a ≠ [] → ∃ c s d, dotted a = String c s ∧ Py.digit c = Some d.
Proof.
  destruct a as [|x [|y a]]; [contradiction| |]; intros _.
  - destruct (JsonFacts.pretty_N_head x "") as (c & s & d & Heq & Hd).
    rewrite JsonFacts.append_nil_r in Heq. exists c, s, d. split; assumption.
  - rewrite dotted_cons.
    destruct (JsonFacts.pretty_N_head x (String "." (dotted (y :: a))))
      as (c & s & d & Heq & Hd).
    exists c, s, d. split; assumption.
Qed.

Lemma no_space_dotted c a : has_char c (dotted a) = true → Py.isspace c = false.
Proof.
  intros H. destruct (has_char_dotted c a H) as [[d Hd]| ->]; [|reflexivity].
  apply (digit_plain c d Hd).
Qed.

Lemma has_char_head c s : has_char c (String c s) = true.
Proof. cbn [has_char]. rewrite Ascii.eqb_refl. reflexivity. Qed.

Lemma has_char_tail c b s : has_char c s = true → has_char c (String b s) = true.
Proof. intros H. cbn [has_char]. rewrite H. destruct (Ascii.eqb b c); reflexivity. Qed.

Lemma rstrip_plain s :
  (∀ c, has_char c s = true → Py.isspace c = false) → Py.rstrip s = s.
Proof.
  induction s as [|b s IH]; intros H; [reflexivity|].
  cbn [Py.rstrip].
  rewrite IH by (intros c Hc; apply H, has_char_tail, Hc).
  destruct s as [|b' s]; [|reflexivity].
  rewrite (H b (has_char_head b "")). reflexivity.
Qed.

Lemma strip_plain s :
  (∀ c, has_char c s = true → Py.isspace c = false) → Py.strip s = s.
Proof.
  intros H. unfold Py.strip.
  assert (Hl : Py.lstrip s = s).
  { destruct s as [|b s]; [reflexivity|].
    cbn [Py.lstrip]. rewrite (H b (has_char_head b s)). reflexivity. }
  rewrite Hl. apply rstrip_plain, H.
Qed.

Lemma split_dotted a : a ≠ [] → Py.split "." (dotted a) = map pretty a.
Proof.
  induction a as [|x [|y a] IH]; [contradiction| |]; intros _.
  - cbn [dotted map]. apply split_free.
    destruct (has_char "." (pretty x)) eqn:H; [|reflexivity].
    apply has_char_pretty in H as [d Hd]. discriminate Hd.
  - rewrite dotted_cons, split_field.
    + rewrite IH by discriminate. reflexivity.
    + destruct (has_char "." (pretty x)) eqn:H; [|reflexivity].
      apply has_char_pretty in H as [d Hd]. discriminate Hd.
Qed.

Lemma mapM_segment_pretty a : mapM segment (map pretty a) = Some a.
Proof.
  induction a as [|x a IH]; [reflexivity|].
  cbn [map mapM]. rewrite segment_pretty. cbn. rewrite IH. reflexivity.
Qed.

(** Parsing the text of a release gives its key: its components without
    the zeros at the end. *)
Lemma parse_dotted a : a ≠ [] → parse (dotted a) = Ok (drop_trailing_zeros a).
Proof.
  intros Ha. unfold parse.
  rewrite strip_plain by (intros c Hc; apply (no_space_dotted c a Hc)).
  destruct (dotted_head a Ha) as (c & s & d & Heq & Hd).
  destruct (digit_plain c d Hd) as (_ & _ & Hv & HV).
  assert (Hstrip : strip_v (dotted a) = dotted a).
  { rewrite Heq. unfold strip_v. rewrite Hv, HV. reflexivity. }
  rewrite Hstrip, split_dotted, mapM_segment_pretty by exact Ha. reflexivity.
Qed.

Lemma truthy_dotted a : a ≠ [] → Py.truthy (dotted a) = true.
Proof.
  intros Ha. destruct (dotted_head a Ha) as (c & s & d & -> & _). reflexivity.
Qed.


(** *** The order of keys is the numeric order of releases *)

Lemma component_nil i : component [] i = 0%N.
Proof. destruct i; reflexivity. Qed.

Lemma component_drop a i : component (drop_trailing_zeros a) i = component a i.
Proof.
  revert i. induction a as [|x a IH]; intros i; [reflexivity|].
  cbn [drop_trailing_zeros].
  destruct (drop_trailing_zeros a) as [|y r] eqn:Hr.
  - assert (Hzero : ∀ j, component a j = 0%N).
    { intros j. rewrite <- IH. apply component_nil. }
    destruct i as [|i].
    + destruct (N.eqb_spec x 0) as [->|_]; reflexivity.
    + change (component (x :: a) (S i)) with (component a i). rewrite Hzero.
      destruct (N.eqb x 0); [apply component_nil|].
      change (component [x] (S i)) with (component [] i). apply component_nil.
  - destruct i as [|i]; [reflexivity|].
    change (component (x :: y :: r) (S i)) with (component (y :: r) i).
    change (component (x :: a) (S i)) with (component a i).
    apply IH.
Qed.

Lemma drop_is_key a : is_key (drop_trailing_zeros a).
Proof.
  unfold is_key. induction a as [|x a IH]; [reflexivity|].
  cbn [drop_trailing_zeros].
  destruct (drop_trailing_zeros a) as [|y r] eqn:Hr.
  - destruct (N.eqb x 0) eqn:Hx; [reflexivity|].
    cbn [drop_trailing_zeros]. rewrite Hx. reflexivity.
  - change (drop_trailing_zeros (x :: y :: r))
      with (match drop_trailing_zeros (y :: r) with
            | [] => if N.eqb x 0 then [] else [x]
            | r' => x :: r'
            end).
    rewrite IH. reflexivity.
Qed.

Lemma is_key_tail x a : is_key (x :: a) → is_key a.
Proof.
  unfold is_key. cbn [drop_trailing_zeros].
  destruct (drop_trailing_zeros a) as [|y r] eqn:Hr.
  - destruct (N.eqb x 0); intros H; [discriminate H|].
    injection H as <-. reflexivity.
  - intros H. injection H as <-. reflexivity.
Qed.

(** A key that is not empty has a component that is not zero. *)
Lemma is_key_positive a :
  is_key a → a ≠ [] →
  ∃ i, (∀ j, (j < i)%nat → component a j = 0%N) ∧ (0 < component a i)%N.
Proof.
  induction a as [|x a IH]; [contradiction|]. intros Hkey _.
  destruct (N.eqb_spec x 0) as [->|Hx].
  - assert (Ha : a ≠ []).
    { intros ->. discriminate Hkey. }
    destruct (IH (is_key_tail _ _ Hkey) Ha) as (i & Hbefore & Hi).
    exists (S i). split; [|exact Hi].
    intros [|j] Hj; [reflexivity|]. apply (Hbefore j). lia.
  - exists 0%nat. split; [intros j Hj; lia|].
    change (component (x :: a) 0) with x. lia.
Qed.

Lemma lt_key a : is_key a → ∀ b, is_key b → (lt a b = true ↔ release_below a b).
Proof.
  induction a as [|x a IH]; intros Ha [|y b] Hb.
  - split; [discriminate|].
    intros (i & _ & Hi). rewrite !component_nil in Hi. lia.
  - split; [|reflexivity]. intros _.
    destruct (is_key_positive (y :: b) Hb ltac:(discriminate)) as (i & Hbefore & Hi).
    exists i. split.
    + intros j Hj. rewrite component_nil, Hbefore by exact Hj. reflexivity.
    + rewrite component_nil. exact Hi.
  - split; [discriminate|].
    intros (i & _ & Hi). rewrite component_nil in Hi. lia.
  - cbn [lt]. specialize (IH (is_key_tail _ _ Ha) b (is_key_tail _ _ Hb)).
    split.
    + intros H. apply orb_true_iff in H as [H|H].
      * apply N.ltb_lt in H. exists 0%nat. split; [intros j Hj; lia|exact H].
      * apply andb_true_iff in H as [Hxy H]. apply N.eqb_eq in Hxy. subst y.
        apply IH in H as (i & Hbefore & Hi).
        exists (S i). split; [|exact Hi].
        intros [|j] Hj; [reflexivity|]. apply (Hbefore j). lia.
    + intros ([|i] & Hbefore & Hi).
      * change (x < y)%N in Hi. apply N.ltb_lt in Hi. rewrite Hi. reflexivity.
      * assert (Hxy : x = y) by (apply (Hbefore 0%nat); lia). subst y.
        rewrite N.eqb_refl, orb_true_iff. right. cbn [andb].
        apply IH. exists i. split; [|exact Hi].
        intros j Hj. apply (Hbefore (S j)). lia.
Qed.

(** The model compares two releases by their numbers. *)
Lemma lt_release a b :
  lt (drop_trailing_zeros a) (drop_trailing_zeros b) = true ↔ release_below a b.
Proof.
  rewrite (lt_key _ (drop_is_key a) _ (drop_is_key b)).
  unfold release_below. setoid_rewrite component_drop. reflexivity.
Qed.

End Pep440Facts.

(** The comparisons of the check on the texts of two releases. *)
Lemma below_minimum_dotted a b :
  a ≠ [] → b ≠ [] →
  below_minimum Pep440.parse Pep440.lt (Pep440.dotted a) (Pep440.dotted b)
  = ret (Pep440.lt (Pep440.drop_trailing_zeros a) (Pep440.drop_trailing_zeros b)).
Proof.
  intros Ha Hb. unfold below_minimum.
  rewrite (Pep440Facts.truthy_dotted b Hb).
  rewrite (Pep440Facts.parse_dotted a Ha), bind_lift_ok.
  rewrite (Pep440Facts.parse_dotted b Hb), bind_lift_ok. reflexivity.
Qed.

Lemma above_maximum_dotted a b :
  a ≠ [] → b ≠ [] →
  above_maximum Pep440.parse Pep440.gt (Pep440.dotted a) (Some (Pep440.dotted b))
  = ret (Pep440.lt (Pep440.drop_trailing_zeros b) (Pep440.drop_trailing_zeros a)).
Proof.
  intros Ha Hb. unfold above_maximum.
  rewrite (Pep440Facts.truthy_dotted b Hb).
  rewrite (Pep440Facts.parse_dotted a Ha), bind_lift_ok.
  rewrite (Pep440Facts.parse_dotted b Hb), bind_lift_ok. reflexivity.
Qed.

(** C7. The comparison the version check applies to installed versions and
    bounds is the numeric order of releases, not the order of strings.
    For the texts of any two releases, numbers with dots between them, the
    test of the minimum holds exactly when the installed release is
    numerically below the bound, and the test of the maximum exactly when
    it is numerically above: the first component in which the two differ,
    both padded with zeros, decides.  A package that reports a release
    numerically below its minimum gets the below-minimum line and the result
    [False].  In particular 1.9.0 is below 1.10.0, which is below 2.0.0,
    where the order of strings puts 1.9.0 above 1.10.0; a torch at 1.9.0
    fails the check. *)
Theorem version_order_is_numeric :
  (∀ a b : list N, a ≠ [] → b ≠ [] →
     ∃ r, below_minimum Pep440.parse Pep440.lt (Pep440.dotted a) (Pep440.dotted b) = ret r
          ∧ (r = true ↔ Pep440.release_below a b))
  ∧ (∀ a b : list N, a ≠ [] → b ≠ [] →
     ∃ r, above_maximum Pep440.parse Pep440.gt (Pep440.dotted a) (Some (Pep440.dotted b))
          = ret r
          ∧ (r = true ↔ Pep440.release_below b a))
  ∧ (∀ (env : Env) p (a b : list N) mx ok, a ≠ [] → b ≠ [] →
       installed env p (Pep440.dotted a) → Pep440.release_below a b →
       Release.check_package env p (Pep440.dotted b) mx ok
       = ([Call (pip_show p);
           Print (p +:+ ": " +:+ Pep440.dotted a +:+ " is below minimum "
                  +:+ Pep440.dotted b)],
          Ok false))
  ∧ below_minimum Pep440.parse Pep440.lt "1.9.0" "1.10.0" = ret true
  ∧ below_minimum Pep440.parse Pep440.lt "1.10.0" "2.0.0" = ret true
  ∧ below_minimum Pep440.parse Pep440.lt "1.9.0" "2.0.0" = ret true
  ∧ below_minimum Pep440.parse Pep440.lt "1.10.0" "1.9.0" = ret false
  ∧ above_maximum Pep440.parse Pep440.gt "1.10.0" (Some "1.9.0") = ret true
  ∧ above_maximum Pep440.parse Pep440.gt "2.0.0" (Some "1.10.0") = ret true
  ∧ String.ltb "1.9.0" "1.10.0" = false
  ∧ (∀ check listing d,
       let env := Fixture.pip check Fixture.torch_1_9 listing d in
       Release.check_package env "torch" "1.10.0" None true
         = ([Call (pip_show "torch"); Print "torch: 1.9.0 is below minimum 1.10.0"],
            Ok false)
       ∧ outcome (Release.check_critical_versions env) = Ok false).
Proof.
  split; [|split; [|split]].
  - intros a b Ha Hb. eexists. split; [apply below_minimum_dotted; assumption|].
    apply Pep440Facts.lt_release.
  - intros a b Ha Hb. eexists. split; [apply above_maximum_dotted; assumption|].
    apply Pep440Facts.lt_release.
  - intros env p a b mx ok Ha Hb Hinst Hbelow.
    apply (check_package_below Pep440.parse Pep440.lt Pep440.gt env p
             (Pep440.dotted b) mx ok (Pep440.dotted a) Hinst).
    + apply Pep440Facts.truthy_dotted, Hb.
    + exists (Pep440.drop_trailing_zeros a), (Pep440.drop_trailing_zeros b).
      split; [apply Pep440Facts.parse_dotted, Ha|].
      split; [apply Pep440Facts.parse_dotted, Hb|].
      apply Pep440Facts.lt_release, Hbelow.
  - do 7 (split; [vm_compute; reflexivity|]).
    intros check listing d env. split; vm_compute; reflexivity.
Qed.

(** ** The version line of an output *)

Lemma version_line_of_output pre v post :
  Forall passed_over pre →
  has_char (ascii_of_nat 10) v = false →
  version_line (unlines pre +:+ "Version:" +:+ v +:+ Py.nl +:+ post)
  = Some ("Version:" +:+ v).
Proof.
  intros Hpre Hnl. unfold version_line.
  induction Hpre as [|l pre [Hl Hs] Hpre IH].
  - change (unlines [] +:+ ?s) with s.
    rewrite <- JsonFacts.append_assoc, split_line by (apply has_newline_version, Hnl).
    reflexivity.
  - cbn [unlines]. rewrite !JsonFacts.append_assoc, split_line by exact Hl.
    cbn [List.find]. rewrite Hs. exact IH.
Qed.

(** X11. What the inner loop of the version check does with the output of
    [pip show]: lines that do not start with [Version:] are passed over, and
    on the first line that starts with it the comparisons and the line
    printed use the text after [Version:] without the whitespace around it,
    when that text holds no colon; nothing after that line is looked at. *)
Theorem version_read_from_output {Version} (parse : string → result Version)
    version_lt version_gt p mn mx ok pre v post :
  Forall passed_over pre →
  has_char (ascii_of_nat 10) v = false → has_char ":" v = false →
  scan_lines parse version_lt version_gt p mn mx
    (Py.split (ascii_of_nat 10)
       (unlines pre +:+ "Version:" +:+ v +:+ Py.nl +:+ post)) ok
  = (below ← below_minimum parse version_lt (Py.strip v) mn;
     if below then
       print (p +:+ ": " +:+ Py.strip v +:+ " is below minimum " +:+ mn);;
       ret false
     else
       above ← above_maximum parse version_gt (Py.strip v) mx;
       if above then
         print (p +:+ ": " +:+ Py.strip v +:+ " exceeds maximum " +:+ str_of_max mx);;
         ret ok
       else
         print (p +:+ ": " +:+ Py.strip v +:+ " (valid)");;
         ret ok).
Proof.
  intros Hpre Hnl Hcolon.
  rewrite scan_lines_find.
  pose proof (version_line_of_output pre v post Hpre Hnl) as Hline.
  unfold version_line in Hline. rewrite Hline.
  unfold check_version_line, index.
  change (Py.split ":" ("Version:" +:+ v)) with ("Version" :: Py.split ":" v).
  rewrite split_free by exact Hcolon.
  change (["Version"; v] !! 1) with (Some v). cbv beta iota.
  rewrite bind_ret. reflexivity.
Qed.

Lemma version_read_from_output_witness :
  scan_lines Pep440.parse Pep440.lt Pep440.gt "torch" "1.10.0" None
    (Py.split (ascii_of_nat 10)
       ("Name: torch" +:+ Py.nl +:+ "Version: 1.12.0 " +:+ Py.nl
        +:+ "Summary: tensors" +:+ Py.nl +:+ "Version: 0.1" +:+ Py.nl)) true
  = ([Print "torch: 1.12.0 (valid)"], Ok true).
Proof.
  pose proof (version_read_from_output Pep440.parse Pep440.lt Pep440.gt
                "torch" "1.10.0" None true ["Name: torch"] " 1.12.0 "
                ("Summary: tensors" +:+ Py.nl +:+ "Version: 0.1" +:+ Py.nl)) as H.
  assert (Hpre : Forall passed_over ["Name: torch"]).
  { constructor; [split; reflexivity|constructor]. }
  exact (H Hpre eq_refl eq_refl).
Defined.
